(** * Billing server: checkout initiator and webhook subscription projector

    A shallow embedding of [stripe_server.js] (an Express server that wires
    a front end to Stripe) and the properties of its two stateful handlers,
    [POST /api/billing/checkout] and [POST /api/billing/webhooks].

    JavaScript values are embedded as the JSON values a request or a vendor
    event can carry, plus [undefined] for an absent property.  The
    process-local object [subscriptions] is a finite map from property keys
    to stored records.  The vendor SDK is a record of functions, so every
    statement holds for whatever the vendor answers. *)

From stdpp Require Import gmap strings list.

Local Open Scope string_scope.
Set Warnings "-register-all".

(** ** JavaScript values *)

(** A number is held as the text [Number::toString] gives for it; the
    handlers only ever test a number for truthiness or interpolate it. *)
Inductive jsval : Type :=
| JUndefined
| JNull
| JBool (b : bool)
| JNumber (text : string)
| JString (s : string)
| JArray (items : list jsval)
| JObject (props : list (string * jsval)).

Inductive exn : Type :=
| TypeError
| VendorRejected.

Inductive completion (A : Type) : Type :=
| Normal (a : A)
| Throw (e : exn).

Arguments Normal {A} a.
Arguments Throw {A} e.

Definition cbind {A B : Type} (c : completion A) (k : A -> completion B)
  : completion B :=
  match c with
  | Normal a => k a
  | Throw e => Throw e
  end.

Notation "'let?' x ':=' c 'in' k" := (cbind c (fun x => k))
  (at level 10, x name, c at level 100, k at level 200).

(** [ToBoolean]: the falsy values are [undefined], [null], [false], [0],
    [NaN] and the empty string. *)
Definition truthy (v : jsval) : bool :=
  match v with
  | JUndefined | JNull => false
  | JBool b => b
  | JNumber text => negb (String.eqb text "0" || String.eqb text "NaN")
  | JString s => negb (String.eqb s "")
  | JArray _ | JObject _ => true
  end.

Fixpoint assoc (k : string) (props : list (string * jsval)) : option jsval :=
  match props with
  | [] => None
  | (k', v) :: rest => if String.eqb k k' then Some v else assoc k rest
  end.

(** [v.k] for the member names the handlers read ([type], [data], [object],
    [subscription], [metadata], [orgId], [plan], [status], [id], [url]):
    none of them is a built-in member of a primitive or of an array, so
    only an object's own properties answer.  Reading a member of
    [undefined] or [null] throws. *)
Definition get (v : jsval) (k : string) : completion jsval :=
  match v with
  | JUndefined | JNull => Throw TypeError
  | JObject props => Normal (default JUndefined (assoc k props))
  | _ => Normal JUndefined
  end.

(** [ToString], as a template literal or a computed property key applies
    it.  A parsed object has no callable member of its own: one that
    carries a [toString] property shadows the inherited method and cannot
    be converted, any other prints as [[object Object]].  An array joins
    its elements with commas, [undefined] and [null] printing as nothing. *)
Fixpoint ToString (v : jsval) : completion string :=
  match v with
  | JUndefined => Normal "undefined"
  | JNull => Normal "null"
  | JBool true => Normal "true"
  | JBool false => Normal "false"
  | JNumber text => Normal text
  | JString s => Normal s
  | JArray items =>
      match items with
      | [] => Normal ""
      | x :: rest =>
          let? first :=
            match x with
            | JUndefined | JNull => Normal ""
            | _ => ToString x
            end in
          let? others :=
            (fix join (l : list jsval) : completion string :=
               match l with
               | [] => Normal ""
               | y :: l' =>
                   let? piece :=
                     match y with
                     | JUndefined | JNull => Normal ""
                     | _ => ToString y
                     end in
                   let? more := join l' in
                   Normal ("," +:+ piece +:+ more)
               end) rest in
          Normal (first +:+ others)
      end
  | JObject props =>
      match assoc "toString" props with
      | Some _ => Throw TypeError
      | None => Normal "[object Object]"
      end
  end.

(** [===] against a string literal. *)
Definition strict_eq_string (v : jsval) (lit : string) : bool :=
  match v with
  | JString s => String.eqb s lit
  | _ => false
  end.

(** ** The server's world and the handler monad *)

(** What a handler can touch: the module-level object [subscriptions], the
    console, and the calls made to the vendor so far, oldest first.

    [subscriptions] is only ever assigned to, one computed key at a time,
    so its state is the finite map from each property key to the record
    last assigned under it.  (For the key ["__proto__"] the assignment
    lands in the object's prototype slot instead of an own property; the
    map entry stands for that slot; [read] and [own_keys] below give the
    object's reads and own property names from the map.) *)
Inductive VendorCall : Type :=
| CustomersCreate (params : jsval)
| CheckoutSessionsCreate (params : jsval).

Record World : Type := {
  subscriptions : gmap string jsval;
  console : list string;
  vendor_calls : list VendorCall
}.

(** A handler step runs in a world and either completes or throws; what it
    did to the world before throwing stays done. *)
Definition Handler (A : Type) : Type := World -> completion A * World.

Definition ret {A : Type} (a : A) : Handler A := fun w => (Normal a, w).

Definition bind {A B : Type} (m : Handler A) (k : A -> Handler B) : Handler B :=
  fun w =>
    match m w with
    | (Normal a, w') => k a w'
    | (Throw e, w') => (Throw e, w')
    end.

Definition lift {A : Type} (c : completion A) : Handler A := fun w => (c, w).

Definition try_catch {A : Type} (m : Handler A) (h : exn -> Handler A)
  : Handler A :=
  fun w =>
    match m w with
    | (Normal a, w') => (Normal a, w')
    | (Throw e, w') => h e w'
    end.

Notation "'let!' x ':=' m 'in' k" := (bind m (fun x => k))
  (at level 10, x name, m at level 100, k at level 200).
Notation "'do!' m 'in' k" := (bind m (fun _ => k))
  (at level 10, m at level 100, k at level 200).

(** [subscriptions[key] = record] *)
Definition set_subscription (key : string) (record : jsval) : Handler unit :=
  fun w =>
    (Normal tt,
     {| subscriptions := <[key := record]> (subscriptions w);
        console := console w;
        vendor_calls := vendor_calls w |}).

(** [console.log] and [console.error] *)
Definition console_log (line : string) : Handler unit :=
  fun w =>
    (Normal tt,
     {| subscriptions := subscriptions w;
        console := console w ++ [line];
        vendor_calls := vendor_calls w |}).

Definition call_vendor (c : VendorCall) (answer : option jsval)
  : Handler jsval :=
  fun w =>
    (match answer with
     | Some v => Normal v
     | None => Throw VendorRejected
     end,
     {| subscriptions := subscriptions w;
        console := console w;
        vendor_calls := vendor_calls w ++ [c] |}).

(** ** Configuration, vendor and HTTP *)

(** [process.env]: each variable is a string, or [undefined] when unset. *)
Record Env : Type := {
  STRIPE_SECRET_KEY : jsval;
  STRIPE_PRICE_PRO_MONTHLY : jsval;
  STRIPE_PRICE_BUSINESS_MONTHLY : jsval;
  STRIPE_WEBHOOK_SECRET : jsval;
  APP_URL : jsval
}.

(** The vendor SDK.  [webhooks_constructEvent body sig secret] answers the
    decoded event, or the message of the error it throws; a creation call
    resolves with the created object or rejects. *)
Record Stripe : Type := {
  webhooks_constructEvent : string -> jsval -> jsval -> string + jsval;
  customers_create : jsval -> option jsval;
  checkout_sessions_create : jsval -> option jsval
}.

Inductive Body : Type :=
| Json (v : jsval)
| Text (s : string).

(** [Sent]: the handler answered.  [Uncaught]: an exception left the
    handler before it answered, and the request is the framework's to
    deal with. *)
Inductive Response : Type :=
| Sent (status : nat) (body : Body)
| Uncaught (e : exn).

Record CheckoutRequest : Type := { checkout_body : jsval }.

Record WebhookRequest : Type := {
  webhook_body : string;
  stripe_signature : jsval
}.

(** What the framework makes of a finished handler. *)
Definition dispatch (h : Handler Response) (w : World) : Response * World :=
  match h w with
  | (Normal r, w') => (r, w')
  | (Throw e, w') => (Uncaught e, w')
  end.

(** ** [POST /api/billing/checkout] *)

Definition customer_params (org : string) (orgId : jsval) : jsval :=
  JObject [("description", JString ("Customer for org " +:+ org));
           ("metadata", JObject [("orgId", orgId)])].

(** [getOrCreateCustomer]: a vendor customer is created on every call. *)
Definition getOrCreateCustomer (stripe : Stripe) (orgId : jsval)
  : Handler jsval :=
  let! org := lift (ToString orgId) in
  let params := customer_params org orgId in
  let! customer :=
    call_vendor (CustomersCreate params) (customers_create stripe params) in
  lift (get customer "id").

(** The price chosen for a plan: the business price for ['business'], the
    pro price for anything else. *)
Definition priceId_of (env : Env) (plan : jsval) : jsval :=
  if strict_eq_string plan "business"
  then STRIPE_PRICE_BUSINESS_MONTHLY env
  else STRIPE_PRICE_PRO_MONTHLY env.

Definition checkout_session_params
    (customerId priceId orgId plan : jsval) (app1 app2 : string) : jsval :=
  JObject
    [("mode", JString "subscription");
     ("customer", customerId);
     ("payment_method_collection", JString "always");
     ("line_items",
       JArray [JObject [("price", priceId); ("quantity", JNumber "1")]]);
     ("subscription_data",
       JObject [("trial_period_days", JNumber "14");
                ("metadata", JObject [("orgId", orgId); ("plan", plan)])]);
     ("success_url",
       JString (app1 +:+ "/billing/success?session_id={CHECKOUT_SESSION_ID}"));
     ("cancel_url", JString (app2 +:+ "/pricing?canceled=1"))].

Definition missing_plan_or_orgId : Response :=
  Sent 400 (Json (JObject [("error", JString "Missing plan or orgId")])).

(** The [catch] block logs the error as well; only the fixed part of that
    line is kept. *)
Definition checkout (stripe : Stripe) (env : Env) (req : CheckoutRequest)
  : Handler Response :=
  let! plan := lift (get (checkout_body req) "plan") in
  let! orgId := lift (get (checkout_body req) "orgId") in
  if negb (truthy plan) || negb (truthy orgId) then
    ret missing_plan_or_orgId
  else
    let priceId := priceId_of env plan in
    try_catch
      (let! customerId := getOrCreateCustomer stripe orgId in
       let! app1 := lift (ToString (APP_URL env)) in
       let! app2 := lift (ToString (APP_URL env)) in
       let params :=
         checkout_session_params customerId priceId orgId plan app1 app2 in
       let! session :=
         call_vendor (CheckoutSessionsCreate params)
                     (checkout_sessions_create stripe params) in
       let! url := lift (get session "url") in
       ret (Sent 200 (Json (JObject [("url", url)]))))
      (fun err =>
         do! console_log "Error creating checkout session:" in
         ret (Sent 500 (Json (JObject [("error", JString "Internal server error")])))).

(** ** [POST /api/billing/webhooks] *)

(** The record literal [{ plan, status }]. *)
Definition record (plan status : jsval) : jsval :=
  JObject [("plan", plan); ("status", status)].

(** [case 'checkout.session.completed'] *)
Definition on_checkout_session_completed (data : jsval) : Handler unit :=
  let! session := lift (get data "object") in
  let! subscription := lift (get session "subscription") in
  let! source :=
    if truthy subscription then lift (get session "metadata")
    else ret session in
  let! orgId := lift (get source "orgId") in
  let! plan := lift (get source "plan") in
  let! key := lift (ToString orgId) in
  do! set_subscription key (record plan (JString "trialing")) in
  let! org := lift (ToString orgId) in
  let! pl := lift (ToString plan) in
  console_log ("Checkout completed for org " +:+ org +:+ ": trialing " +:+ pl).

(** [case 'customer.subscription.updated'] *)
Definition on_customer_subscription_updated (data : jsval) : Handler unit :=
  let! subscription := lift (get data "object") in
  let! metadata := lift (get subscription "metadata") in
  let! orgId := lift (get metadata "orgId") in
  let! metadata' := lift (get subscription "metadata") in
  let! plan := lift (get metadata' "plan") in
  let! key := lift (ToString orgId) in
  let! status := lift (get subscription "status") in
  do! set_subscription key (record plan status) in
  let! org := lift (ToString orgId) in
  let! status' := lift (get subscription "status") in
  let! st := lift (ToString status') in
  console_log ("Subscription updated for org " +:+ org +:+ ": " +:+ st).

(** [case 'customer.subscription.deleted'] *)
Definition on_customer_subscription_deleted (data : jsval) : Handler unit :=
  let! subscription := lift (get data "object") in
  let! metadata := lift (get subscription "metadata") in
  let! orgId := lift (get metadata "orgId") in
  let! key := lift (ToString orgId) in
  do! set_subscription key (record (JString "free") (JString "canceled")) in
  let! org := lift (ToString orgId) in
  console_log ("Subscription canceled for org " +:+ org).

(** [default:] *)
Definition on_unhandled (type : jsval) : Handler unit :=
  let! ty := lift (ToString type) in
  console_log ("Unhandled event type " +:+ ty).

Definition received : Response :=
  Sent 200 (Json (JObject [("received", JBool true)])).

Definition webhook (stripe : Stripe) (env : Env) (req : WebhookRequest)
  : Handler Response :=
  let sig := stripe_signature req in
  match webhooks_constructEvent stripe (webhook_body req) sig
                                (STRIPE_WEBHOOK_SECRET env) with
  | inl message =>
      do! console_log ("Webhook signature verification failed: " +:+ message) in
      ret (Sent 400 (Text ("Webhook Error: " +:+ message)))
  | inr event =>
      let! type := lift (get event "type") in
      let! data := lift (get event "data") in
      do! (if strict_eq_string type "checkout.session.completed" then
             on_checkout_session_completed data
           else if strict_eq_string type "customer.subscription.updated" then
             on_customer_subscription_updated data
           else if strict_eq_string type "customer.subscription.deleted" then
             on_customer_subscription_deleted data
           else on_unhandled type) in
      ret received
  end.

(** [const subscriptions = {}] at start-up, an empty console, no call yet. *)
Definition boot : World :=
  {| subscriptions := ∅; console := []; vendor_calls := [] |}.

(** ** The billing event a vendor event stands for *)

(** The fields each [case] of the handler reads off the vendor event, as
    the event variant they amount to. *)
Inductive BillingEvent : Type :=
| CheckoutCompleted (orgId plan : jsval)
| SubscriptionUpdated (orgId plan status : jsval)
| SubscriptionDeleted (orgId : jsval)
| Unhandled (type : jsval).

Definition checkout_session_completed_fields (data : jsval)
  : completion BillingEvent :=
  let? session := get data "object" in
  let? subscription := get session "subscription" in
  let? source :=
    if truthy subscription then get session "metadata" else Normal session in
  let? orgId := get source "orgId" in
  let? plan := get source "plan" in
  Normal (CheckoutCompleted orgId plan).

Definition customer_subscription_updated_fields (data : jsval)
  : completion BillingEvent :=
  let? subscription := get data "object" in
  let? metadata := get subscription "metadata" in
  let? orgId := get metadata "orgId" in
  let? plan := get metadata "plan" in
  let? status := get subscription "status" in
  Normal (SubscriptionUpdated orgId plan status).

Definition customer_subscription_deleted_fields (data : jsval)
  : completion BillingEvent :=
  let? subscription := get data "object" in
  let? metadata := get subscription "metadata" in
  let? orgId := get metadata "orgId" in
  Normal (SubscriptionDeleted orgId).

Definition decode (event : jsval) : completion BillingEvent :=
  let? type := get event "type" in
  let? data := get event "data" in
  if strict_eq_string type "checkout.session.completed" then
    checkout_session_completed_fields data
  else if strict_eq_string type "customer.subscription.updated" then
    customer_subscription_updated_fields data
  else if strict_eq_string type "customer.subscription.deleted" then
    customer_subscription_deleted_fields data
  else Normal (Unhandled type).

(** The record an event variant stores, and for which organisation. *)
Definition write_of (e : BillingEvent) : option (jsval * jsval) :=
  match e with
  | CheckoutCompleted orgId plan =>
      Some (orgId, record plan (JString "trialing"))
  | SubscriptionUpdated orgId plan status => Some (orgId, record plan status)
  | SubscriptionDeleted orgId =>
      Some (orgId, record (JString "free") (JString "canceled"))
  | Unhandled _ => None
  end.

(** The projection of a vendor event: the property key and the record of
    the assignment it leads to, if it leads to one. *)
Definition key_write (decoded : completion BillingEvent)
  : option (string * jsval) :=
  match decoded with
  | Normal e =>
      match write_of e with
      | Some (orgId, r) =>
          match ToString orgId with
          | Normal key => Some (key, r)
          | Throw _ => None
          end
      | None => None
      end
  | Throw _ => None
  end.

Definition projection (event : jsval) : option (string * jsval) :=
  key_write (decode event).

(** ** Deliveries *)

(** One webhook call, and a sequence of them in delivery order. *)
Definition deliver (stripe : Stripe) (env : Env) (w : World)
    (req : WebhookRequest) : World :=
  snd (dispatch (webhook stripe env req) w).

Definition deliver_all (stripe : Stripe) (env : Env)
    (reqs : list WebhookRequest) (w : World) : World :=
  foldl (deliver stripe env) w reqs.

(** The event a call carries once the vendor has verified it. *)
Definition verified (stripe : Stripe) (env : Env) (req : WebhookRequest)
  : option jsval :=
  match webhooks_constructEvent stripe (webhook_body req)
          (stripe_signature req) (STRIPE_WEBHOOK_SECRET env) with
  | inl _ => None
  | inr event => Some event
  end.

(** What a call writes, if anything. *)
Definition written (stripe : Stripe) (env : Env) (req : WebhookRequest)
  : option (string * jsval) :=
  match verified stripe env req with
  | Some event => projection event
  | None => None
  end.

Definition store_after (write : option (string * jsval))
    (store : gmap string jsval) : gmap string jsval :=
  match write with
  | Some (key, r) => <[key := r]> store
  | None => store
  end.

(** ** Sample deployment and events *)

Module Sample.

Definition env : Env :=
  {| STRIPE_SECRET_KEY := JString "sk_test_1";
     STRIPE_PRICE_PRO_MONTHLY := JString "price_pro";
     STRIPE_PRICE_BUSINESS_MONTHLY := JString "price_business";
     STRIPE_WEBHOOK_SECRET := JString "whsec_1";
     APP_URL := JString "https://app.example" |}.

Definition event (type : string) (object : jsval) : jsval :=
  JObject [("type", JString type); ("data", JObject [("object", object)])].

Definition org_metadata (orgId plan : string) : jsval :=
  JObject [("orgId", JString orgId); ("plan", JString plan)].

Definition checkout_completed : jsval :=
  event "checkout.session.completed"
    (JObject [("subscription", JString "sub_1");
              ("metadata", org_metadata "acme" "pro")]).

Definition subscription_updated : jsval :=
  event "customer.subscription.updated"
    (JObject [("metadata", org_metadata "acme" "pro");
              ("status", JString "active")]).

Definition subscription_deleted : jsval :=
  event "customer.subscription.deleted"
    (JObject [("metadata", org_metadata "acme" "pro");
              ("status", JString "canceled")]).

Definition invoice_paid : jsval :=
  event "invoice.paid" (JObject [("customer", JString "cus_1")]).

(** A completed session that has no subscription and carries the
    organisation and the plan in its metadata only. *)
Definition session_no_subscription : jsval :=
  JObject [("subscription", JNull); ("metadata", org_metadata "acme" "pro")].

Definition checkout_completed_no_subscription : jsval :=
  event "checkout.session.completed" session_no_subscription.

(** A vendor that accepts the signature ["good"], reads the body as the
    name of one of the events above, and resolves every creation. *)
Definition parse (body : string) : string + jsval :=
  if String.eqb body "checkout_completed" then inr checkout_completed
  else if String.eqb body "subscription_updated" then inr subscription_updated
  else if String.eqb body "subscription_deleted" then inr subscription_deleted
  else if String.eqb body "invoice_paid" then inr invoice_paid
  else if String.eqb body "checkout_completed_no_subscription"
  then inr checkout_completed_no_subscription
  else inl "Unexpected token in JSON".

Definition stripe : Stripe :=
  {| webhooks_constructEvent body sig secret :=
       if strict_eq_string sig "good" then parse body
       else inl "No signatures found matching the expected signature for payload";
     customers_create params := Some (JObject [("id", JString "cus_1")]);
     checkout_sessions_create params :=
       Some (JObject [("url", JString "https://checkout.example/s1")]) |}.

(** A vendor that verifies every call and decodes it to [event]. *)
Definition sending (event : jsval) : Stripe :=
  {| webhooks_constructEvent body sig secret := inr event;
     customers_create params := None;
     checkout_sessions_create params := None |}.

Definition signed (body : string) : WebhookRequest :=
  {| webhook_body := body; stripe_signature := JString "good" |}.

Definition forged (body : string) : WebhookRequest :=
  {| webhook_body := body; stripe_signature := JString "bad" |}.

Definition checkout_for (plan orgId : string) : CheckoutRequest :=
  {| checkout_body :=
       JObject [("plan", JString plan); ("orgId", JString orgId)] |}.

End Sample.

(** ** Induction over values *)

(** Induction on a value with the hypothesis available for every element of
    an array. *)
Section jsval_elements_ind.
Variable P : jsval -> Prop.
Hypothesis Hundefined : P JUndefined.
Hypothesis Hnull : P JNull.
Hypothesis Hbool : forall b, P (JBool b).
Hypothesis Hnumber : forall text, P (JNumber text).
Hypothesis Hstring : forall s, P (JString s).
Hypothesis Harray : forall items, Forall P items -> P (JArray items).
Hypothesis Hobject : forall props, P (JObject props).

Fixpoint jsval_elements_ind (v : jsval) : P v :=
  match v with
  | JUndefined => Hundefined
  | JNull => Hnull
  | JBool b => Hbool b
  | JNumber text => Hnumber text
  | JString s => Hstring s
  | JArray items =>
      Harray items
        ((fix all (l : list jsval) : Forall P l :=
            match l with
            | [] => List.Forall_nil P
            | x :: l' =>
                List.Forall_cons P x l' (jsval_elements_ind x) (all l')
            end) items)
  | JObject props => Hobject props
  end.
End jsval_elements_ind.

(** ** What a handled event logs, and the projector step *)

(** The line each [case] prints once its assignment is done. *)
Definition log_line (e : BillingEvent) : completion string :=
  match e with
  | CheckoutCompleted orgId plan =>
      let? org := ToString orgId in
      let? pl := ToString plan in
      Normal ("Checkout completed for org " +:+ org +:+ ": trialing " +:+ pl)
  | SubscriptionUpdated orgId plan status =>
      let? org := ToString orgId in
      let? st := ToString status in
      Normal ("Subscription updated for org " +:+ org +:+ ": " +:+ st)
  | SubscriptionDeleted orgId =>
      let? org := ToString orgId in
      Normal ("Subscription canceled for org " +:+ org)
  | Unhandled type =>
      let? ty := ToString type in
      Normal ("Unhandled event type " +:+ ty)
  end.

(** What a [case] does once its fields are read: assign, then log. *)
Definition apply_event (e : BillingEvent) : Handler unit :=
  do! match write_of e with
      | Some (orgId, r) =>
          let! key := lift (ToString orgId) in
          set_subscription key r
      | None => ret tt
      end in
  let! line := lift (log_line e) in
  console_log line.

(** ** [GET /api/billing/portal] *)

(** The part of the vendor SDK only the portal uses, and the parameters of
    the portal sessions requested so far, oldest first. *)
Record BillingPortal : Type := {
  billingPortal_sessions_create : jsval -> option jsval
}.

Record PortalWorld : Type := {
  server : World;
  portal_sessions : list jsval
}.

Record PortalRequest : Type := { portal_query : jsval }.

(** [Redirected url]: the handler called [res.redirect(url)]. *)
Inductive PortalResponse : Type :=
| Answered (r : Response)
| Redirected (url : jsval).

Definition orgId_is_required : PortalResponse :=
  Answered (Sent 400 (Text "orgId is required")).

Definition portal_session_params (customerId : jsval) (app : string) : jsval :=
  JObject [("customer", customerId);
           ("return_url", JString (app +:+ "/settings/billing"))].

(** The [catch] block of the portal: log, then answer 500 in plain text. *)
Definition portal_failed (w : World) (sessions : list jsval)
  : PortalResponse * PortalWorld :=
  (Answered (Sent 500 (Text "Internal server error")),
   {| server := snd (console_log "Error creating billing portal session:" w);
      portal_sessions := sessions |}).

Definition portal (stripe : Stripe) (billingPortal : BillingPortal)
    (env : Env) (req : PortalRequest) (pw : PortalWorld)
  : PortalResponse * PortalWorld :=
  match get (portal_query req) "orgId" with
  | Throw e => (Answered (Uncaught e), pw)
  | Normal orgId =>
      if negb (truthy orgId) then (orgId_is_required, pw)
      else
        match getOrCreateCustomer stripe orgId (server pw) with
        | (Throw _, w) => portal_failed w (portal_sessions pw)
        | (Normal customerId, w) =>
            match ToString (APP_URL env) with
            | Throw _ => portal_failed w (portal_sessions pw)
            | Normal app =>
                let params := portal_session_params customerId app in
                let sessions := (portal_sessions pw ++ [params])%list in
                match billingPortal_sessions_create billingPortal params with
                | None => portal_failed w sessions
                | Some portalSession =>
                    match get portalSession "url" with
                    | Throw _ => portal_failed w sessions
                    | Normal url =>
                        (Redirected url,
                         {| server := w; portal_sessions := sessions |})
                    end
                end
            end
        end
  end.

(** ** Sample portal *)

Module PortalSample.

Definition billingPortal : BillingPortal :=
  {| billingPortal_sessions_create params :=
       Some (JObject [("url", JString "https://billing.example/p1")]) |}.

Definition request_for (orgId : string) : PortalRequest :=
  {| portal_query := JObject [("orgId", JString orgId)] |}.

Definition start : PortalWorld := {| server := boot; portal_sessions := [] |}.

End PortalSample.

(** ** Outcomes of the checkout handler *)

Definition internal_server_error : Response :=
  Sent 500 (Json (JObject [("error", JString "Internal server error")])).

(** The world once one more vendor call has been made. *)
Definition after_call (w : World) (c : VendorCall) : World :=
  {| subscriptions := subscriptions w;
     console := console w;
     vendor_calls := vendor_calls w ++ [c] |}.

(** The [catch] block of the checkout: log, then answer 500. *)
Definition checkout_failed (w : World) : Response * World :=
  (internal_server_error,
   snd (console_log "Error creating checkout session:" w)).

(** One checkout call, as the world it leaves. *)
Definition checkout_world (stripe : Stripe) (env : Env) (w : World)
    (req : CheckoutRequest) : World :=
  snd (dispatch (checkout stripe env req) w).

(** ** Reading the store *)





(** The object's own property names: every key assigned under except
    ["__proto__"], whose assignment sets the prototype and adds no
    property. *)
Definition own_keys (store : gmap string jsval) : gset string :=
  dom store ∖ {["__proto__"]}.

(** * Properties *)

(** *** Conversions *)

Example ToString_array :
  ToString (JArray [JString "a"; JNull; JNumber "2"; JArray [JBool true]])
  = Normal "a,,2,true".
Proof. reflexivity. Qed.

Example ToString_shadowed :
  ToString (JObject [("toString", JNumber "1")]) = Throw TypeError
  /\ ToString (JObject [("id", JNumber "1")]) = Normal "[object Object]".
Proof. split; reflexivity. Qed.

(** *** Sample runs of the webhook handler *)

Example checkout_completed_run :
  dispatch (webhook Sample.stripe Sample.env (Sample.signed "checkout_completed"))
           boot
  = (received,
     {| subscriptions :=
          {[ "acme" := record (JString "pro") (JString "trialing") ]};
        console := ["Checkout completed for org acme: trialing pro"];
        vendor_calls := [] |}).
Proof. reflexivity. Qed.

(** A session with a subscription and no metadata: the destructuring
    throws before anything is stored. *)
Example null_metadata_run :
  dispatch
    (webhook
       (Sample.sending
          (Sample.event "checkout.session.completed"
             (JObject [("subscription", JString "sub_1"); ("metadata", JNull)])))
       Sample.env (Sample.signed "{}"))
    boot
  = (Uncaught TypeError, boot).
Proof. reflexivity. Qed.

(** A status that cannot be interpolated: the record is stored, then the
    log line throws and the call is not acknowledged. *)
Example odd_status_run :
  dispatch
    (webhook
       (Sample.sending
          (Sample.event "customer.subscription.updated"
             (JObject [("metadata", Sample.org_metadata "acme" "pro");
                       ("status", JObject [("toString", JNull)])])))
       Sample.env (Sample.signed "{}"))
    boot
  = (Uncaught TypeError,
     {| subscriptions :=
          {[ "acme" := record (JString "pro") (JObject [("toString", JNull)]) ]};
        console := [];
        vendor_calls := [] |}).
Proof. reflexivity. Qed.

(** *** What a delivery does to the store *)

Ltac eval_get :=
  match goal with
  | |- context [get ?v ?k] => destruct (get v k) eqn:?; simpl
  end.

Ltac eval_ToString :=
  match goal with
  | |- context [ToString ?v] => destruct (ToString v) eqn:?; simpl
  end.

Ltac eval_case :=
  unfold bind, lift, ret, cbind, key_write, set_subscription, console_log;
  simpl;
  repeat eval_get;
  repeat match goal with
         | |- context [truthy ?v] => destruct (truthy v); simpl
         end;
  repeat eval_get;
  repeat eval_ToString;
  try reflexivity.

Lemma checkout_session_completed_store data w :
  subscriptions (snd (on_checkout_session_completed data w))
  = store_after (key_write (checkout_session_completed_fields data))
                (subscriptions w).
Proof.
  unfold on_checkout_session_completed, checkout_session_completed_fields.
  eval_case.
Qed.

Lemma customer_subscription_updated_store data w :
  subscriptions (snd (on_customer_subscription_updated data w))
  = store_after (key_write (customer_subscription_updated_fields data))
                (subscriptions w).
Proof.
  unfold on_customer_subscription_updated, customer_subscription_updated_fields.
  eval_case.
Qed.

Lemma customer_subscription_deleted_store data w :
  subscriptions (snd (on_customer_subscription_deleted data w))
  = store_after (key_write (customer_subscription_deleted_fields data))
                (subscriptions w).
Proof.
  unfold on_customer_subscription_deleted, customer_subscription_deleted_fields.
  eval_case.
Qed.

Lemma unhandled_store type w :
  subscriptions (snd (on_unhandled type w)) = subscriptions w.
Proof. unfold on_unhandled. eval_case. Qed.

Lemma then_received_store (m : Handler unit) w :
  subscriptions (snd (dispatch (do! m in ret received) w))
  = subscriptions (snd (m w)).
Proof.
  unfold dispatch, bind, ret. by destruct (m w) as [[[]|e] w'].
Qed.

Lemma dispatch_bind_lift {A : Type} (c : completion A)
    (k : A -> Handler Response) w :
  dispatch (let! a := lift c in k a) w
  = match c with
    | Normal a => dispatch (k a) w
    | Throw e => (Uncaught e, w)
    end.
Proof. by destruct c. Qed.

Lemma webhook_store stripe env req w :
  subscriptions (deliver stripe env w req)
  = store_after (written stripe env req) (subscriptions w).
Proof.
  unfold deliver, written, verified, webhook, projection, decode.
  destruct (webhooks_constructEvent _ _ _ _) as [msg|event]; [done|].
  rewrite dispatch_bind_lift.
  destruct (get event "type") as [type|]; [|done].
  rewrite dispatch_bind_lift.
  destruct (get event "data") as [data|]; [|done].
  rewrite then_received_store. simpl.
  repeat case_match;
    auto using checkout_session_completed_store,
      customer_subscription_updated_store,
      customer_subscription_deleted_store, unhandled_store.
Qed.

Lemma store_after_lookup write (store : gmap string jsval) key :
  store_after write store !! key
  = match write with
    | Some (key', r) => if decide (key' = key) then Some r else store !! key
    | None => store !! key
    end.
Proof.
  destruct write as [[key' r]|]; simpl; [|done].
  by rewrite lookup_insert.
Qed.

Lemma store_after_keeps write (store : gmap string jsval) key :
  is_Some (store !! key) -> is_Some (store_after write store !! key).
Proof.
  intros Hin. rewrite store_after_lookup.
  destruct write as [[key' r]|]; [|done].
  case_decide; eauto.
Qed.

Lemma deliver_all_app stripe env reqs1 reqs2 w :
  deliver_all stripe env (reqs1 ++ reqs2) w
  = deliver_all stripe env reqs2 (deliver_all stripe env reqs1 w).
Proof. apply foldl_app. Qed.

(** Deliveries that write under other keys leave a key's entry alone. *)
Lemma deliver_all_other_keys stripe env reqs key :
  (forall req, req ∈ reqs ->
     forall r, written stripe env req <> Some (key, r)) ->
  forall w,
    subscriptions (deliver_all stripe env reqs w) !! key
    = subscriptions w !! key.
Proof.
  induction reqs as [|req reqs IH]; intros Hother w; [done|].
  simpl. rewrite IH.
  - rewrite webhook_store, store_after_lookup.
    destruct (written stripe env req) as [[key' r]|] eqn:Hw; [|done].
    case_decide as Hkey; [|done]. subst key'.
    exfalso. apply (Hother req (list_elem_of_here _ _) r Hw).
  - intros req' Hin. apply Hother. by apply list_elem_of_further.
Qed.

(** No delivery removes an entry. *)
Lemma deliver_all_keeps stripe env reqs key :
  forall w,
    is_Some (subscriptions w !! key) ->
    is_Some (subscriptions (deliver_all stripe env reqs w) !! key).
Proof.
  induction reqs as [|req reqs IH]; intros w Hin; [done|].
  simpl. apply IH. rewrite webhook_store. by apply store_after_keeps.
Qed.

Lemma written_decoded stripe env req event e orgId r key :
  verified stripe env req = Some event ->
  decode event = Normal e ->
  write_of e = Some (orgId, r) ->
  ToString orgId = Normal key ->
  written stripe env req = Some (key, r).
Proof.
  intros Hv Hd Hw Hk. unfold written, projection, key_write.
  by rewrite Hv, Hd, Hw, Hk.
Qed.

(** A value that has one member read without a throw has them all. *)
Lemma get_total v k k' a :
  get v k = Normal a -> exists b, get v k' = Normal b.
Proof. destruct v; simpl; intros; simplify_eq; eauto. Qed.

(** ** The webhook handler as a projector *)

(** C4. A checkout-completed event, for whatever prior store, makes the
    store hold [{plan, status: 'trialing'}] under the organisation's key,
    in place of whatever was there; every other entry is as before. *)
Theorem checkout_completed_writes_trialing
    stripe env req w event orgId plan key :
  verified stripe env req = Some event ->
  decode event = Normal (CheckoutCompleted orgId plan) ->
  ToString orgId = Normal key ->
  subscriptions (deliver stripe env w req)
  = <[key := record plan (JString "trialing")]> (subscriptions w)
  /\ subscriptions (deliver stripe env w req) !! key
     = Some (record plan (JString "trialing")).
Proof.
  intros Hv Hd Hk.
  rewrite webhook_store,
    (written_decoded _ _ _ _ _ _ _ _ Hv Hd eq_refl Hk); simpl.
  split; [done|apply lookup_insert_eq].
Qed.

Lemma checkout_completed_acme_pro :
  subscriptions
    (deliver Sample.stripe Sample.env boot (Sample.signed "checkout_completed"))
  = <[ "acme" := record (JString "pro") (JString "trialing") ]> ∅
  /\ subscriptions
       (deliver Sample.stripe Sample.env boot
                (Sample.signed "checkout_completed")) !! "acme"
     = Some (record (JString "pro") (JString "trialing")).
Proof.
  apply (checkout_completed_writes_trialing Sample.stripe Sample.env
           (Sample.signed "checkout_completed") boot
           Sample.checkout_completed (JString "acme") (JString "pro") "acme");
    reflexivity.
Defined.

(** C5. A subscription-updated event, for whatever prior store, makes the
    store hold [{plan, status}] under the organisation's key, in place of
    whatever was there. *)
Theorem subscription_updated_writes_status
    stripe env req w event orgId plan status key :
  verified stripe env req = Some event ->
  decode event = Normal (SubscriptionUpdated orgId plan status) ->
  ToString orgId = Normal key ->
  subscriptions (deliver stripe env w req)
  = <[key := record plan status]> (subscriptions w)
  /\ subscriptions (deliver stripe env w req) !! key
     = Some (record plan status).
Proof.
  intros Hv Hd Hk.
  rewrite webhook_store,
    (written_decoded _ _ _ _ _ _ _ _ Hv Hd eq_refl Hk); simpl.
  split; [done|apply lookup_insert_eq].
Qed.

Lemma checkout_then_updated_acme_active :
  let trial :=
    deliver Sample.stripe Sample.env boot (Sample.signed "checkout_completed") in
  subscriptions
    (deliver Sample.stripe Sample.env trial (Sample.signed "subscription_updated"))
  = <[ "acme" := record (JString "pro") (JString "active") ]>
      (subscriptions trial)
  /\ subscriptions
       (deliver Sample.stripe Sample.env trial
                (Sample.signed "subscription_updated")) !! "acme"
     = Some (record (JString "pro") (JString "active")).
Proof.
  intros trial.
  apply (subscription_updated_writes_status Sample.stripe Sample.env
           (Sample.signed "subscription_updated") trial
           Sample.subscription_updated (JString "acme") (JString "pro")
           (JString "active") "acme");
    reflexivity.
Defined.

(** C6. A subscription-deleted event, for whatever prior store, makes the
    store hold [{plan: 'free', status: 'canceled'}] under the
    organisation's key; the key is present afterwards and stays present
    through every later delivery. *)
Theorem subscription_deleted_writes_canceled
    stripe env req w event orgId key :
  verified stripe env req = Some event ->
  decode event = Normal (SubscriptionDeleted orgId) ->
  ToString orgId = Normal key ->
  subscriptions (deliver stripe env w req) !! key
  = Some (record (JString "free") (JString "canceled"))
  /\ key ∈ dom (subscriptions (deliver stripe env w req))
  /\ forall later,
       key ∈ dom (subscriptions
                    (deliver_all stripe env later (deliver stripe env w req))).
Proof.
  intros Hv Hd Hk.
  assert (subscriptions (deliver stripe env w req) !! key
          = Some (record (JString "free") (JString "canceled"))) as Hrec.
  { rewrite webhook_store,
      (written_decoded _ _ _ _ _ _ _ _ Hv Hd eq_refl Hk); simpl.
    apply lookup_insert_eq. }
  split; [done|].
  split; [apply elem_of_dom; eauto|].
  intros later. apply elem_of_dom, deliver_all_keeps. eauto.
Qed.

Lemma subscription_deleted_acme :
  subscriptions
    (deliver Sample.stripe Sample.env boot (Sample.signed "subscription_deleted"))
    !! "acme"
  = Some (record (JString "free") (JString "canceled"))
  /\ "acme" ∈ dom (subscriptions
                     (deliver Sample.stripe Sample.env boot
                              (Sample.signed "subscription_deleted")))
  /\ forall later,
       "acme" ∈ dom (subscriptions
                       (deliver_all Sample.stripe Sample.env later
                          (deliver Sample.stripe Sample.env boot
                                   (Sample.signed "subscription_deleted")))).
Proof.
  apply (subscription_deleted_writes_canceled Sample.stripe Sample.env
           (Sample.signed "subscription_deleted") boot
           Sample.subscription_deleted (JString "acme") "acme");
    reflexivity.
Defined.

(** C3. Delivering the same call twice in a row leaves the store as one
    delivery does, whatever the call carries: any of the three handled
    events, an unhandled one, one whose fields make the handler throw, or
    one the vendor does not verify. *)
Theorem redelivery_is_idempotent stripe env req w :
  subscriptions (deliver stripe env (deliver stripe env w req) req)
  = subscriptions (deliver stripe env w req).
Proof.
  rewrite !webhook_store.
  destruct (written stripe env req) as [[key r]|]; simpl; [|done].
  apply insert_insert_eq.
Qed.

Lemma verified_Some stripe env req event :
  verified stripe env req = Some event ->
  webhooks_constructEvent stripe (webhook_body req) (stripe_signature req)
    (STRIPE_WEBHOOK_SECRET env) = inr event.
Proof. unfold verified. case_match; naive_solver. Qed.

Lemma verified_None stripe env req :
  verified stripe env req = None ->
  exists message,
    webhooks_constructEvent stripe (webhook_body req) (stripe_signature req)
      (STRIPE_WEBHOOK_SECRET env) = inl message.
Proof. unfold verified. case_match; naive_solver. Qed.

Lemma strict_eq_string_ne s lit :
  s <> lit -> strict_eq_string (JString s) lit = false.
Proof. intros Hne. by apply String.eqb_neq. Qed.

(** The [default] branch: whatever [type] is, as long as it is none of the
    three labels and can be interpolated into the log line. *)
Lemma default_case_run stripe env req w event type txt :
  verified stripe env req = Some event ->
  get event "type" = Normal type ->
  strict_eq_string type "checkout.session.completed" = false ->
  strict_eq_string type "customer.subscription.updated" = false ->
  strict_eq_string type "customer.subscription.deleted" = false ->
  ToString type = Normal txt ->
  dispatch (webhook stripe env req) w
  = (received,
     {| subscriptions := subscriptions w;
        console := console w ++ ["Unhandled event type " +:+ txt];
        vendor_calls := vendor_calls w |}).
Proof.
  intros Hv Htype H1 H2 H3 Htxt.
  unfold webhook. rewrite (verified_Some _ _ _ _ Hv).
  rewrite dispatch_bind_lift, Htype, dispatch_bind_lift.
  destruct (get_total _ _ "data" _ Htype) as [data ->].
  rewrite H1, H2, H3.
  unfold dispatch, on_unhandled, bind, lift, ret, console_log.
  by rewrite Htxt.
Qed.

(** C7. An event whose type is none of the three handled ones changes no
    entry of the store and is acknowledged with [{received: true}]; the
    handler only logs it. *)
Theorem unhandled_event_is_acknowledged stripe env req w event type :
  verified stripe env req = Some event ->
  get event "type" = Normal (JString type) ->
  type <> "checkout.session.completed" ->
  type <> "customer.subscription.updated" ->
  type <> "customer.subscription.deleted" ->
  dispatch (webhook stripe env req) w
  = (received,
     {| subscriptions := subscriptions w;
        console := console w ++ ["Unhandled event type " +:+ type];
        vendor_calls := vendor_calls w |})
  /\ forall key,
       subscriptions (deliver stripe env w req) !! key
       = subscriptions w !! key.
Proof.
  intros Hv Htype H1 H2 H3.
  pose proof (default_case_run stripe env req w event (JString type) type
                Hv Htype (strict_eq_string_ne _ _ H1)
                (strict_eq_string_ne _ _ H2) (strict_eq_string_ne _ _ H3)
                eq_refl) as Hrun.
  split; [done|].
  intros key. unfold deliver. by rewrite Hrun.
Qed.

Lemma invoice_paid_is_acknowledged :
  dispatch (webhook Sample.stripe Sample.env (Sample.signed "invoice_paid")) boot
  = (received,
     {| subscriptions := ∅;
        console := ["Unhandled event type invoice.paid"];
        vendor_calls := [] |})
  /\ forall key,
       subscriptions
         (deliver Sample.stripe Sample.env boot (Sample.signed "invoice_paid"))
         !! key
       = subscriptions boot !! key.
Proof.
  apply (unhandled_event_is_acknowledged Sample.stripe Sample.env
           (Sample.signed "invoice_paid") boot Sample.invoice_paid
           "invoice.paid");
    [reflexivity | reflexivity | discriminate | discriminate | discriminate].
Defined.

(** C8. A call the vendor does not verify is answered with status 400 and
    the error text, never with [{received: true}], and changes no entry of
    the store. *)
Theorem unverified_call_is_rejected stripe env req w :
  verified stripe env req = None ->
  (exists message,
     fst (dispatch (webhook stripe env req) w)
     = Sent 400 (Text ("Webhook Error: " +:+ message)))
  /\ fst (dispatch (webhook stripe env req) w) <> received
  /\ forall key,
       subscriptions (deliver stripe env w req) !! key
       = subscriptions w !! key.
Proof.
  intros Hv. destruct (verified_None _ _ _ Hv) as [message Hmsg].
  unfold deliver, webhook. rewrite Hmsg. simpl.
  split; [by exists message|]. split; done.
Qed.

Lemma forged_call_is_rejected :
  (exists message,
     fst (dispatch (webhook Sample.stripe Sample.env
                      (Sample.forged "checkout_completed")) boot)
     = Sent 400 (Text ("Webhook Error: " +:+ message)))
  /\ fst (dispatch (webhook Sample.stripe Sample.env
                      (Sample.forged "checkout_completed")) boot)
     <> received
  /\ forall key,
       subscriptions (deliver Sample.stripe Sample.env boot
                        (Sample.forged "checkout_completed")) !! key
       = subscriptions boot !! key.
Proof.
  apply (unverified_call_is_rejected Sample.stripe Sample.env
           (Sample.forged "checkout_completed") boot).
  reflexivity.
Defined.

(** C2. After any finite sequence of webhook calls, the entry stored for an
    organisation is the projection of the last call, in delivery order,
    whose event is for that organisation. *)
Theorem last_delivery_wins stripe env w before req after event key r :
  verified stripe env req = Some event ->
  projection event = Some (key, r) ->
  (forall req', req' ∈ after ->
     forall r', written stripe env req' <> Some (key, r')) ->
  subscriptions (deliver_all stripe env (before ++ req :: after) w) !! key
  = Some r.
Proof.
  intros Hv Hp Hafter.
  rewrite deliver_all_app. simpl.
  rewrite (deliver_all_other_keys _ _ _ _ Hafter).
  rewrite webhook_store. unfold written. rewrite Hv, Hp. simpl.
  apply lookup_insert_eq.
Qed.

Lemma acme_lifecycle_ends_canceled :
  subscriptions
    (deliver_all Sample.stripe Sample.env
       ([Sample.signed "checkout_completed";
         Sample.signed "subscription_updated"]
        ++ Sample.signed "subscription_deleted"
        :: [Sample.signed "invoice_paid"; Sample.forged "checkout_completed"])
       boot) !! "acme"
  = Some (record (JString "free") (JString "canceled")).
Proof.
  apply (last_delivery_wins Sample.stripe Sample.env boot
           [Sample.signed "checkout_completed";
            Sample.signed "subscription_updated"]
           (Sample.signed "subscription_deleted")
           [Sample.signed "invoice_paid"; Sample.forged "checkout_completed"]
           Sample.subscription_deleted "acme"
           (record (JString "free") (JString "canceled")));
    [reflexivity | reflexivity |].
  intros req' Hin r'.
  apply list_elem_of_In in Hin.
  destruct Hin as [<-|[<-|[]]]; discriminate.
Defined.







(** C10. When a completed session's [subscription] is falsy, the
    organisation and the plan are read from the session object itself,
    whatever its metadata holds; a session that carries them in its metadata
    only is therefore stored under the key ["undefined"] with an undefined
    plan, and nothing is stored under its organisation. *)
Theorem falsy_subscription_reads_the_session :
  (forall stripe env req w event data session subscription,
     verified stripe env req = Some event ->
     get event "type" = Normal (JString "checkout.session.completed") ->
     get event "data" = Normal data ->
     get data "object" = Normal session ->
     get session "subscription" = Normal subscription ->
     truthy subscription = false ->
     exists orgId plan,
       get session "orgId" = Normal orgId
       /\ get session "plan" = Normal plan
       /\ decode event = Normal (CheckoutCompleted orgId plan)
       /\ forall key,
            ToString orgId = Normal key ->
            subscriptions (deliver stripe env w req)
            = <[key := record plan (JString "trialing")]> (subscriptions w))
  /\ (let after :=
        deliver Sample.stripe Sample.env boot
          (Sample.signed "checkout_completed_no_subscription") in
      get Sample.session_no_subscription "subscription" = Normal JNull
      /\ get Sample.session_no_subscription "metadata"
         = Normal (Sample.org_metadata "acme" "pro")
      /\ get (Sample.org_metadata "acme" "pro") "orgId" = Normal (JString "acme")
      /\ get (Sample.org_metadata "acme" "pro") "plan" = Normal (JString "pro")
      /\ projection Sample.checkout_completed_no_subscription
         = Some ("undefined", record JUndefined (JString "trialing"))
      /\ subscriptions after
         = {[ "undefined" := record JUndefined (JString "trialing") ]}
      /\ subscriptions after !! "undefined"
         = Some (record JUndefined (JString "trialing"))
      /\ subscriptions after !! "acme" = None).
Proof.
  split.
  - intros stripe env req w event data session subscription
      Hv Htype Hdata Hsession Hsub Hfalsy.
    destruct (get_total _ _ "orgId" _ Hsub) as [orgId HorgId].
    destruct (get_total _ _ "plan" _ Hsub) as [plan Hplan].
    assert (decode event = Normal (CheckoutCompleted orgId plan)) as Hd.
    { unfold decode, checkout_session_completed_fields.
      rewrite Htype, Hdata. simpl.
      rewrite Hsession. simpl. rewrite Hsub. simpl.
      rewrite Hfalsy. simpl. by rewrite HorgId, Hplan. }
    exists orgId, plan. repeat split; try done.
    intros key Hk.
    by rewrite webhook_store,
      (written_decoded _ _ _ _ _ _ _ _ Hv Hd eq_refl Hk).
  - cbv zeta. rewrite webhook_store.
    change (written Sample.stripe Sample.env
              (Sample.signed "checkout_completed_no_subscription"))
      with (Some ("undefined", record JUndefined (JString "trialing"))).
    simpl. do 6 (split; [done|]).
    split; [apply lookup_insert_eq|].
    by rewrite lookup_insert_ne, lookup_empty.
Qed.

Lemma no_subscription_session_reads_top_level :
  exists orgId plan,
    get Sample.session_no_subscription "orgId" = Normal orgId
    /\ get Sample.session_no_subscription "plan" = Normal plan
    /\ decode Sample.checkout_completed_no_subscription
       = Normal (CheckoutCompleted orgId plan)
    /\ forall key,
         ToString orgId = Normal key ->
         subscriptions
           (deliver Sample.stripe Sample.env boot
                    (Sample.signed "checkout_completed_no_subscription"))
         = <[key := record plan (JString "trialing")]> (subscriptions boot).
Proof.
  apply (proj1 falsy_subscription_reads_the_session
           Sample.stripe Sample.env
           (Sample.signed "checkout_completed_no_subscription") boot
           Sample.checkout_completed_no_subscription
           (JObject [("object", Sample.session_no_subscription)])
           Sample.session_no_subscription JNull);
    reflexivity.
Defined.

(** ** The checkout initiator *)

(** C1 does not hold as stated: a request for the plan ["enterprise"] is
    not refused.  It is served like one for ["pro"]:
    a customer and a checkout session at the pro price are created, and
    the session's URL is returned. *)
Lemma enterprise_checkout_reaches_the_vendor :
  let out :=
    dispatch (checkout Sample.stripe Sample.env
                (Sample.checkout_for "enterprise" "acme")) boot in
  fst out
  = Sent 200 (Json (JObject [("url", JString "https://checkout.example/s1")]))
  /\ vendor_calls (snd out)
     = [CustomersCreate (customer_params "acme" (JString "acme"));
        CheckoutSessionsCreate
          (checkout_session_params (JString "cus_1") (JString "price_pro")
             (JString "acme") (JString "enterprise")
             "https://app.example" "https://app.example")].
Proof. split; reflexivity. Qed.

Lemma priceId_of_business env :
  priceId_of env (JString "business") = STRIPE_PRICE_BUSINESS_MONTHLY env.
Proof. reflexivity. Qed.

Lemma priceId_of_other env plan :
  plan <> JString "business" ->
  priceId_of env plan = STRIPE_PRICE_PRO_MONTHLY env.
Proof.
  intros Hne. unfold priceId_of.
  destruct plan as [| |b|t|s|l|o]; try reflexivity.
  simpl. destruct (String.eqb_spec s "business") as [->|]; [done|reflexivity].
Qed.

Lemma truthy_string s : s <> "" -> truthy (JString s) = true.
Proof. intros Hne. simpl. by destruct (String.eqb_spec s "") as [->|]. Qed.

(** Every path of the checkout once both fields are present. *)
Lemma checkout_run stripe env req w plan orgId :
  get (checkout_body req) "plan" = Normal plan ->
  get (checkout_body req) "orgId" = Normal orgId ->
  truthy plan = true ->
  truthy orgId = true ->
  dispatch (checkout stripe env req) w
  = match ToString orgId with
    | Throw _ => checkout_failed w
    | Normal org =>
        let w1 := after_call w (CustomersCreate (customer_params org orgId)) in
        match customers_create stripe (customer_params org orgId) with
        | None => checkout_failed w1
        | Some customer =>
            match get customer "id", ToString (APP_URL env) with
            | Normal customerId, Normal app =>
                let params :=
                  checkout_session_params customerId (priceId_of env plan)
                    orgId plan app app in
                let w2 := after_call w1 (CheckoutSessionsCreate params) in
                match checkout_sessions_create stripe params with
                | None => checkout_failed w2
                | Some session =>
                    match get session "url" with
                    | Normal url =>
                        (Sent 200 (Json (JObject [("url", url)])), w2)
                    | Throw _ => checkout_failed w2
                    end
                end
            | _, _ => checkout_failed w1
            end
        end
    end.
Proof.
  intros Hplan HorgId Htplan HtorgId.
  unfold checkout.
  rewrite dispatch_bind_lift, Hplan, dispatch_bind_lift, HorgId.
  rewrite Htplan, HtorgId. simpl.
  unfold dispatch, try_catch, getOrCreateCustomer, bind, lift, ret,
    call_vendor, console_log, checkout_failed, after_call. simpl.
  destruct (ToString orgId) as [org|]; simpl; [|done].
  destruct (customers_create stripe _) as [customer|]; simpl; [|done].
  destruct (get customer "id") as [customerId|]; simpl; [|done].
  destruct (ToString (APP_URL env)) as [app|]; simpl; [|done].
  destruct (checkout_sessions_create stripe _) as [session|]; simpl; [|done].
  by destruct (get session "url") as [url|].
Qed.

(** C1, as the code has it.  A request is refused with status 400 exactly
    when its plan or its organisation is missing, and then before any
    vendor call.  No request is refused for its plan: the price is the
    business price for the plan ['business'] and the pro price for any
    other plan.  With both fields present, an organisation that can be
    interpolated sends the request to the vendor, whatever the plan: a
    customer is created, and when the vendor resolves it a checkout
    session at that price is requested; one that cannot be interpolated is
    answered 500 before any vendor call. *)
Theorem checkout_serves_every_plan stripe env req w plan orgId :
  get (checkout_body req) "plan" = Normal plan ->
  get (checkout_body req) "orgId" = Normal orgId ->
  let out := dispatch (checkout stripe env req) w in
  (fst out = missing_plan_or_orgId
   <-> truthy plan = false \/ truthy orgId = false)
  /\ (truthy plan = false \/ truthy orgId = false ->
        out = (missing_plan_or_orgId, w))
  /\ (plan = JString "business" ->
        priceId_of env plan = STRIPE_PRICE_BUSINESS_MONTHLY env)
  /\ (plan <> JString "business" ->
        priceId_of env plan = STRIPE_PRICE_PRO_MONTHLY env)
  /\ (truthy plan = true -> truthy orgId = true ->
      (forall err, ToString orgId = Throw err -> out = checkout_failed w)
      /\ forall org, ToString orgId = Normal org ->
           (exists rest,
              vendor_calls (snd out)
              = (vendor_calls w
                 ++ CustomersCreate (customer_params org orgId) :: rest)%list)
           /\ forall customer customerId app,
                customers_create stripe (customer_params org orgId)
                = Some customer ->
                get customer "id" = Normal customerId ->
                ToString (APP_URL env) = Normal app ->
                vendor_calls (snd out)
                = (vendor_calls w
                   ++ [CustomersCreate (customer_params org orgId);
                       CheckoutSessionsCreate
                         (checkout_session_params customerId
                            (priceId_of env plan) orgId plan app app)])%list).
Proof.
  intros Hplan HorgId out.
  assert (truthy plan = false \/ truthy orgId = false ->
          out = (missing_plan_or_orgId, w)) as Hmissing.
  { subst out. unfold checkout.
    rewrite dispatch_bind_lift, Hplan, dispatch_bind_lift, HorgId.
    intros [-> | ->]; simpl; [done|]. by rewrite orb_true_r. }
  assert (truthy plan = true -> truthy orgId = true ->
          fst out <> missing_plan_or_orgId) as Hserved.
  { intros Htplan HtorgId. subst out.
    rewrite (checkout_run _ _ _ _ _ _ Hplan HorgId Htplan HtorgId).
    unfold checkout_failed. repeat case_match; done. }
  split; [|split; [done|split; [|split]]].
  - split.
    + intros Hrefused.
      destruct (truthy plan) eqn:Htplan; [|by left].
      destruct (truthy orgId) eqn:HtorgId; [|by right].
      by destruct (Hserved eq_refl eq_refl).
    + intros Hfalsy. by rewrite (Hmissing Hfalsy).
  - intros ->. apply priceId_of_business.
  - apply priceId_of_other.
  - intros Htplan HtorgId. subst out.
    rewrite (checkout_run _ _ _ _ _ _ Hplan HorgId Htplan HtorgId).
    split.
    + by intros err ->.
    + intros org ->.
      destruct (customers_create stripe _) as [customer|] eqn:Hcustomer.
      2: { split; [by exists []|]. intros; congruence. }
      destruct (get customer "id") as [customerId|] eqn:Hid.
      2: { split; [by exists []|]. intros; congruence. }
      destruct (ToString (APP_URL env)) as [app|] eqn:Happ.
      2: { split; [by exists []|]. intros; congruence. }
      assert (forall out',
                (out' = checkout_failed
                          (after_call
                             (after_call w
                                (CustomersCreate (customer_params org orgId)))
                             (CheckoutSessionsCreate
                                (checkout_session_params customerId
                                   (priceId_of env plan) orgId plan app app)))
                 \/ exists url,
                      out' = (Sent 200 (Json (JObject [("url", url)])),
                              after_call
                                (after_call w
                                   (CustomersCreate (customer_params org orgId)))
                                (CheckoutSessionsCreate
                                   (checkout_session_params customerId
                                      (priceId_of env plan) orgId plan
                                      app app)))) ->
                vendor_calls (snd out')
                = (vendor_calls w
                   ++ [CustomersCreate (customer_params org orgId);
                       CheckoutSessionsCreate
                         (checkout_session_params customerId
                            (priceId_of env plan) orgId plan app app)])%list)
        as Hcalls.
      { intros out' [-> | [url ->]]; simpl; by rewrite <- app_assoc. }
      match goal with
      | |- (exists rest, vendor_calls (snd ?o) = _) /\ _ =>
          assert (vendor_calls (snd o)
                  = (vendor_calls w
                     ++ [CustomersCreate (customer_params org orgId);
                         CheckoutSessionsCreate
                           (checkout_session_params customerId
                              (priceId_of env plan) orgId plan app app)])%list)
            as Hrun
      end.
      { apply Hcalls. simpl. repeat case_match; eauto. }
      split; [by eexists [_]|].
      intros customer' customerId' app' ? ? ?.
      assert (customer' = customer) as -> by congruence.
      assert (customerId' = customerId) as -> by congruence.
      by assert (app' = app) as -> by congruence.
Qed.

Lemma enterprise_checkout_is_priced_pro :
  let out :=
    dispatch (checkout Sample.stripe Sample.env
                (Sample.checkout_for "enterprise" "acme")) boot in
  priceId_of Sample.env (JString "enterprise") = JString "price_pro"
  /\ fst out <> missing_plan_or_orgId
  /\ vendor_calls (snd out)
     = [CustomersCreate (customer_params "acme" (JString "acme"));
        CheckoutSessionsCreate
          (checkout_session_params (JString "cus_1")
             (priceId_of Sample.env (JString "enterprise"))
             (JString "acme") (JString "enterprise")
             "https://app.example" "https://app.example")].
Proof.
  intros out.
  destruct (checkout_serves_every_plan Sample.stripe Sample.env
              (Sample.checkout_for "enterprise" "acme") boot
              (JString "enterprise") (JString "acme") eq_refl eq_refl)
    as (Hrefused & _ & _ & Hpro & Hserved).
  destruct (Hserved eq_refl eq_refl) as (_ & Hprintable).
  destruct (Hprintable "acme" eq_refl) as (_ & Hcalls).
  split; [apply Hpro; discriminate|].
  split.
  - intros Hout. apply Hrefused in Hout. by destruct Hout.
  - exact (Hcalls (JObject [("id", JString "cus_1")]) (JString "cus_1")
             "https://app.example" eq_refl eq_refl eq_refl).
Defined.

(** * Further properties *)

(** ** The webhook handler, case by case *)

(** Each [case] is: read the fields, then assign and log. *)
Lemma on_checkout_session_completed_steps data w :
  on_checkout_session_completed data w
  = (let! e := lift (checkout_session_completed_fields data) in
     apply_event e) w.
Proof.
  unfold on_checkout_session_completed, checkout_session_completed_fields,
    apply_event, log_line.
  eval_case.
Qed.

Lemma on_customer_subscription_updated_steps data w :
  on_customer_subscription_updated data w
  = (let! e := lift (customer_subscription_updated_fields data) in
     apply_event e) w.
Proof.
  unfold on_customer_subscription_updated,
    customer_subscription_updated_fields, apply_event, log_line.
  unfold bind, lift, cbind.
  destruct (get data "object") as [subscription|]; [|done].
  destruct (get subscription "metadata") as [metadata|] eqn:Hmetadata; [|done].
  destruct (get_total _ _ "status" _ Hmetadata) as [status ->].
  eval_case.
Qed.

Lemma on_customer_subscription_deleted_steps data w :
  on_customer_subscription_deleted data w
  = (let! e := lift (customer_subscription_deleted_fields data) in
     apply_event e) w.
Proof.
  unfold on_customer_subscription_deleted,
    customer_subscription_deleted_fields, apply_event, log_line.
  eval_case.
Qed.

Lemma on_unhandled_steps type w :
  on_unhandled type w = apply_event (Unhandled type) w.
Proof. unfold on_unhandled, apply_event, log_line. eval_case. Qed.

(** A verified call runs: decode the event, apply it, acknowledge. *)
Lemma webhook_steps stripe env req w event :
  verified stripe env req = Some event ->
  dispatch (webhook stripe env req) w
  = dispatch (let! e := lift (decode event) in
              do! apply_event e in
              ret received) w.
Proof.
  intros Hv. unfold webhook, decode.
  rewrite (verified_Some _ _ _ _ Hv).
  rewrite !dispatch_bind_lift.
  destruct (get event "type") as [type|]; [|done]. simpl.
  rewrite dispatch_bind_lift.
  destruct (get event "data") as [data|]; [|done]. simpl.
  assert (forall (m : Handler unit) (c : completion BillingEvent),
            (forall w, m w = (let! e := lift c in apply_event e) w) ->
            dispatch (do! m in ret received) w
            = match c with
              | Normal a => dispatch (do! apply_event a in ret received) w
              | Throw e => (Uncaught e, w)
              end) as Hcase.
  { intros m c Hm. unfold dispatch, bind at 1. rewrite Hm.
    unfold bind, lift. by destruct c. }
  destruct (strict_eq_string type "checkout.session.completed");
    [apply Hcase, on_checkout_session_completed_steps|].
  destruct (strict_eq_string type "customer.subscription.updated");
    [apply Hcase, on_customer_subscription_updated_steps|].
  destruct (strict_eq_string type "customer.subscription.deleted");
    [apply Hcase, on_customer_subscription_deleted_steps|].
  apply (Hcase _ (Normal (Unhandled type))). apply on_unhandled_steps.
Qed.

(** A full run of a verified call whose event decodes to a handled
    variant, when the organisation gives a key. *)
Lemma handled_event_run stripe env req w event e orgId r key :
  verified stripe env req = Some event ->
  decode event = Normal e ->
  write_of e = Some (orgId, r) ->
  ToString orgId = Normal key ->
  dispatch (webhook stripe env req) w
  = match log_line e with
    | Normal line =>
        (received,
         {| subscriptions := <[key := r]> (subscriptions w);
            console := console w ++ [line];
            vendor_calls := vendor_calls w |})
    | Throw err =>
        (Uncaught err,
         {| subscriptions := <[key := r]> (subscriptions w);
            console := console w;
            vendor_calls := vendor_calls w |})
    end.
Proof.
  intros Hv Hd Hw Hk.
  rewrite (webhook_steps _ _ _ _ _ Hv), dispatch_bind_lift, Hd.
  unfold dispatch, apply_event, bind, lift, ret, set_subscription, console_log.
  rewrite Hw, Hk. simpl. by destruct (log_line e).
Qed.

(** X1. A verified checkout-completed event whose organisation and plan
    can be interpolated is acknowledged: the record is stored, one line is
    logged, and no vendor call is made. *)
Theorem checkout_completed_is_acknowledged
    stripe env req w event orgId plan key pl :
  verified stripe env req = Some event ->
  decode event = Normal (CheckoutCompleted orgId plan) ->
  ToString orgId = Normal key ->
  ToString plan = Normal pl ->
  dispatch (webhook stripe env req) w
  = (received,
     {| subscriptions :=
          <[key := record plan (JString "trialing")]> (subscriptions w);
        console :=
          console w
          ++ ["Checkout completed for org " +:+ key +:+ ": trialing " +:+ pl];
        vendor_calls := vendor_calls w |}).
Proof.
  intros Hv Hd Hk Hpl.
  rewrite (handled_event_run _ _ _ _ _ _ _ _ _ Hv Hd eq_refl Hk). simpl.
  by rewrite Hk, Hpl.
Qed.

Lemma checkout_completed_acme_is_acknowledged :
  dispatch (webhook Sample.stripe Sample.env (Sample.signed "checkout_completed"))
           boot
  = (received,
     {| subscriptions :=
          <["acme" := record (JString "pro") (JString "trialing")]>
            (subscriptions boot);
        console :=
          console boot
          ++ ["Checkout completed for org " +:+ "acme" +:+ ": trialing " +:+ "pro"];
        vendor_calls := vendor_calls boot |}).
Proof.
  apply (checkout_completed_is_acknowledged Sample.stripe Sample.env
           (Sample.signed "checkout_completed") boot Sample.checkout_completed
           (JString "acme") (JString "pro") "acme" "pro");
    reflexivity.
Defined.

(** X2. A verified subscription-updated event whose organisation and
    status can be interpolated is acknowledged: the record is stored and
    one line, naming the organisation and the status, is logged. *)
Theorem subscription_updated_is_acknowledged
    stripe env req w event orgId plan status key st :
  verified stripe env req = Some event ->
  decode event = Normal (SubscriptionUpdated orgId plan status) ->
  ToString orgId = Normal key ->
  ToString status = Normal st ->
  dispatch (webhook stripe env req) w
  = (received,
     {| subscriptions := <[key := record plan status]> (subscriptions w);
        console :=
          console w
          ++ ["Subscription updated for org " +:+ key +:+ ": " +:+ st];
        vendor_calls := vendor_calls w |}).
Proof.
  intros Hv Hd Hk Hst.
  rewrite (handled_event_run _ _ _ _ _ _ _ _ _ Hv Hd eq_refl Hk). simpl.
  by rewrite Hk, Hst.
Qed.

Lemma subscription_updated_acme_is_acknowledged :
  dispatch (webhook Sample.stripe Sample.env
              (Sample.signed "subscription_updated")) boot
  = (received,
     {| subscriptions :=
          <["acme" := record (JString "pro") (JString "active")]>
            (subscriptions boot);
        console :=
          console boot
          ++ ["Subscription updated for org " +:+ "acme" +:+ ": " +:+ "active"];
        vendor_calls := vendor_calls boot |}).
Proof.
  apply (subscription_updated_is_acknowledged Sample.stripe Sample.env
           (Sample.signed "subscription_updated") boot
           Sample.subscription_updated
           (JString "acme") (JString "pro") (JString "active") "acme" "active");
    reflexivity.
Defined.

(** X3. A verified subscription-deleted event whose organisation can be
    interpolated is acknowledged: the canceled record is stored and one
    line is logged.  The plan and the status the event carries play no
    part. *)
Theorem subscription_deleted_is_acknowledged
    stripe env req w event orgId key :
  verified stripe env req = Some event ->
  decode event = Normal (SubscriptionDeleted orgId) ->
  ToString orgId = Normal key ->
  dispatch (webhook stripe env req) w
  = (received,
     {| subscriptions :=
          <[key := record (JString "free") (JString "canceled")]>
            (subscriptions w);
        console := console w ++ ["Subscription canceled for org " +:+ key];
        vendor_calls := vendor_calls w |}).
Proof.
  intros Hv Hd Hk.
  rewrite (handled_event_run _ _ _ _ _ _ _ _ _ Hv Hd eq_refl Hk). simpl.
  by rewrite Hk.
Qed.

Lemma subscription_deleted_acme_is_acknowledged :
  dispatch (webhook Sample.stripe Sample.env
              (Sample.signed "subscription_deleted")) boot
  = (received,
     {| subscriptions :=
          <["acme" := record (JString "free") (JString "canceled")]>
            (subscriptions boot);
        console :=
          console boot ++ ["Subscription canceled for org " +:+ "acme"];
        vendor_calls := vendor_calls boot |}).
Proof.
  apply (subscription_deleted_is_acknowledged Sample.stripe Sample.env
           (Sample.signed "subscription_deleted") boot
           Sample.subscription_deleted (JString "acme") "acme");
    reflexivity.
Defined.

(** X4. A verified event whose fields cannot be read (no [data], no
    [data.object], a subscription without [metadata], a session with a
    subscription and no [metadata]) is not acknowledged, and the call
    leaves the store, the console and the vendor untouched. *)
Theorem unreadable_event_changes_nothing stripe env req w event err :
  verified stripe env req = Some event ->
  decode event = Throw err ->
  dispatch (webhook stripe env req) w = (Uncaught err, w).
Proof.
  intros Hv Hd.
  by rewrite (webhook_steps _ _ _ _ _ Hv), dispatch_bind_lift, Hd.
Qed.

Lemma null_metadata_changes_nothing :
  dispatch
    (webhook
       (Sample.sending
          (Sample.event "customer.subscription.deleted"
             (JObject [("metadata", JNull)])))
       Sample.env (Sample.signed "{}"))
    boot
  = (Uncaught TypeError, boot).
Proof.
  apply (unreadable_event_changes_nothing _ _ _ _
           (Sample.event "customer.subscription.deleted"
              (JObject [("metadata", JNull)])));
    reflexivity.
Defined.

(** X5. The assignment comes before the log line: when the organisation
    gives a key but the line cannot be built, the record is stored all the
    same and the call is not acknowledged. *)
Theorem record_is_stored_before_the_log_line
    stripe env req w event e orgId r key err :
  verified stripe env req = Some event ->
  decode event = Normal e ->
  write_of e = Some (orgId, r) ->
  ToString orgId = Normal key ->
  log_line e = Throw err ->
  dispatch (webhook stripe env req) w
  = (Uncaught err,
     {| subscriptions := <[key := r]> (subscriptions w);
        console := console w;
        vendor_calls := vendor_calls w |}).
Proof.
  intros Hv Hd Hw Hk Hline.
  by rewrite (handled_event_run _ _ _ _ _ _ _ _ _ Hv Hd Hw Hk), Hline.
Qed.

Lemma odd_plan_is_stored_unacknowledged :
  dispatch
    (webhook
       (Sample.sending
          (Sample.event "checkout.session.completed"
             (JObject [("orgId", JString "acme");
                       ("plan", JObject [("toString", JNull)])])))
       Sample.env (Sample.signed "{}"))
    boot
  = (Uncaught TypeError,
     {| subscriptions :=
          <["acme" := record (JObject [("toString", JNull)]) (JString "trialing")]>
            (subscriptions boot);
        console := console boot;
        vendor_calls := vendor_calls boot |}).
Proof.
  apply (record_is_stored_before_the_log_line _ _ _ _
           (Sample.event "checkout.session.completed"
              (JObject [("orgId", JString "acme");
                        ("plan", JObject [("toString", JNull)])]))
           (CheckoutCompleted (JString "acme") (JObject [("toString", JNull)]))
           (JString "acme") _ "acme" TypeError);
    reflexivity.
Defined.

(** *** What can be thrown *)

Lemma get_throws v k e : get v k = Throw e -> e = TypeError.
Proof. destruct v; simpl; intros; by simplify_eq. Qed.

Lemma ToString_throws v : forall e, ToString v = Throw e -> e = TypeError.
Proof.
  induction v as [| |[|]|text|s|items IH|props] using jsval_elements_ind;
    intros e; simpl; try discriminate.
  - assert (forall y e',
              (forall e, ToString y = Throw e -> e = TypeError) ->
              match y with
              | JUndefined | JNull => Normal ""
              | _ => ToString y
              end = Throw e' -> e' = TypeError) as Hpiece.
    { intros y e' Hy Hthrow. destruct y; try discriminate; by apply Hy. }
    destruct IH as [|x rest Hx Hrest]; [discriminate|].
    destruct (match x with
              | JUndefined | JNull => Normal ""
              | _ => ToString x
              end) eqn:Hfirst; simpl.
    2: { intros; simplify_eq. by eapply Hpiece. }
    match goal with |- context [cbind ?c _] => destruct c eqn:Hjoin end;
      simpl; [discriminate|].
    intros; simplify_eq. clear Hfirst Hx. revert e Hjoin.
    induction Hrest as [|y l Hy Hl IHl]; intros e; [discriminate|].
    destruct (match y with
              | JUndefined | JNull => Normal ""
              | _ => ToString y
              end) eqn:Hpiece'; simpl.
    + match goal with |- context [cbind ?c _] => destruct c eqn:Hmore end;
        simpl; [discriminate|].
      intros; simplify_eq. by apply IHl.
    + intros; simplify_eq. by eapply Hpiece.
  - destruct (assoc "toString" props); intros; by simplify_eq.
Qed.

Lemma decode_throws event e : decode event = Throw e -> e = TypeError.
Proof.
  unfold decode, checkout_session_completed_fields,
    customer_subscription_updated_fields, customer_subscription_deleted_fields,
    cbind.
  repeat (case_match; try discriminate);
    intros; simplify_eq;
    repeat match goal with
           | H : get _ _ = Throw _ |- _ => apply get_throws in H
           end; by subst.
Qed.

Lemma log_line_throws e err : log_line e = Throw err -> err = TypeError.
Proof.
  destruct e; simpl; unfold cbind;
    repeat (case_match; try discriminate);
    intros; simplify_eq;
    repeat match goal with
           | H : ToString _ = Throw _ |- _ => apply ToString_throws in H
           end; by subst.
Qed.

(** What the projector step can do to a world: it completes or throws a
    [TypeError], logs at most one line, and calls no vendor. *)
Lemma apply_event_effects e w :
  (fst (apply_event e w) = Normal tt
   \/ fst (apply_event e w) = Throw TypeError)
  /\ vendor_calls (snd (apply_event e w)) = vendor_calls w
  /\ exists lines,
       console (snd (apply_event e w)) = (console w ++ lines)%list
       /\ length lines <= 1.
Proof.
  unfold apply_event, bind, lift, ret, set_subscription, console_log.
  destruct (write_of e) as [[orgId r]|]; simpl.
  - destruct (ToString orgId) as [key|err] eqn:Hkey; simpl.
    + destruct (log_line e) as [line|err] eqn:Hline; simpl.
      * split; [by left|]. split; [done|]. exists [line]. split; [done|simpl; lia].
      * apply log_line_throws in Hline as ->.
        split; [by right|]. split; [done|]. exists []. split; [|simpl; lia].
        by rewrite app_nil_r.
    + apply ToString_throws in Hkey as ->.
      split; [by right|]. split; [done|]. exists []. split; [|simpl; lia].
      by rewrite app_nil_r.
  - destruct (log_line e) as [line|err] eqn:Hline; simpl.
    + split; [by left|]. split; [done|]. exists [line]. split; [done|simpl; lia].
    + apply log_line_throws in Hline as ->.
      split; [by right|]. split; [done|]. exists []. split; [|simpl; lia].
      by rewrite app_nil_r.
Qed.

(** X6. The webhook handler has three answers and no other: status 400
    with the vendor's error text, exactly when the call is not verified;
    [{received: true}]; or no answer at all because a [TypeError] left the
    handler.  It never answers 500 by itself. *)
Theorem webhook_answers stripe env req w :
  match verified stripe env req with
  | None =>
      exists message,
        fst (dispatch (webhook stripe env req) w)
        = Sent 400 (Text ("Webhook Error: " +:+ message))
  | Some _ =>
      fst (dispatch (webhook stripe env req) w) = received
      \/ fst (dispatch (webhook stripe env req) w) = Uncaught TypeError
  end.
Proof.
  destruct (verified stripe env req) as [event|] eqn:Hv.
  - rewrite (webhook_steps _ _ _ _ _ Hv), dispatch_bind_lift.
    destruct (decode event) as [e|err] eqn:Hd.
    + destruct (apply_event_effects e w) as [Hrun _].
      unfold dispatch, bind, ret.
      destruct (apply_event e w) as [[[]|err] w']; simpl in *.
      * by left.
      * right. destruct Hrun as [?|?]; by simplify_eq.
    + apply decode_throws in Hd as ->. by right.
  - destruct (verified_None _ _ _ Hv) as [message Hmsg].
    exists message. unfold webhook. by rewrite Hmsg.
Qed.

(** X7. The webhook handler never calls the vendor, and a call adds at
    most one line to the console, whatever the call carries. *)
Theorem webhook_calls_no_vendor stripe env req w :
  vendor_calls (deliver stripe env w req) = vendor_calls w
  /\ exists lines,
       console (deliver stripe env w req) = (console w ++ lines)%list
       /\ length lines <= 1.
Proof.
  unfold deliver.
  destruct (verified stripe env req) as [event|] eqn:Hv.
  - rewrite (webhook_steps _ _ _ _ _ Hv), dispatch_bind_lift.
    destruct (decode event) as [e|err] eqn:Hd.
    + destruct (apply_event_effects e w) as (_ & Hcalls & Hconsole).
      unfold dispatch, bind, ret.
      by destruct (apply_event e w) as [[[]|err] w'].
    + simpl. split; [done|]. exists []. split; [|simpl; lia].
      by rewrite app_nil_r.
  - destruct (verified_None _ _ _ Hv) as [message Hmsg].
    unfold webhook. rewrite Hmsg. simpl. split; [done|].
    eexists [_]. split; [done|simpl; lia].
Qed.

(** ** The store across deliveries *)

(** X8. Two calls that write under different keys, or of which one writes
    nothing, can be delivered in either order: the store ends up the
    same. *)
Theorem deliveries_for_different_keys_commute stripe env w req1 req2 :
  (forall key1 r1 key2 r2,
     written stripe env req1 = Some (key1, r1) ->
     written stripe env req2 = Some (key2, r2) ->
     key1 <> key2) ->
  subscriptions (deliver stripe env (deliver stripe env w req1) req2)
  = subscriptions (deliver stripe env (deliver stripe env w req2) req1).
Proof.
  intros Hkeys. rewrite !webhook_store.
  destruct (written stripe env req1) as [[key1 r1]|];
    destruct (written stripe env req2) as [[key2 r2]|]; simpl; try done.
  apply insert_insert_ne. by eapply not_eq_sym, Hkeys.
Qed.

Lemma acme_and_orgless_deliveries_commute :
  subscriptions
    (deliver Sample.stripe Sample.env
       (deliver Sample.stripe Sample.env boot
          (Sample.signed "subscription_updated"))
       (Sample.signed "checkout_completed_no_subscription"))
  = subscriptions
      (deliver Sample.stripe Sample.env
         (deliver Sample.stripe Sample.env boot
            (Sample.signed "checkout_completed_no_subscription"))
         (Sample.signed "subscription_updated")).
Proof.
  apply (deliveries_for_different_keys_commute Sample.stripe Sample.env boot
           (Sample.signed "subscription_updated")
           (Sample.signed "checkout_completed_no_subscription")).
  intros key1 r1 key2 r2 H1 H2.
  vm_compute in H1, H2. simplify_eq. discriminate.
Defined.

Lemma store_dom_after_deliveries stripe env reqs w :
  dom (subscriptions (deliver_all stripe env reqs w))
  = dom (subscriptions w)
    ∪ list_to_set ((omap (written stripe env) reqs).*1).
Proof.
  revert w. induction reqs as [|req reqs IH]; intros w; simpl.
  - by rewrite union_empty_r_L.
  - rewrite IH, webhook_store.
    destruct (written stripe env req) as [[key r]|]; simpl; [|done].
    rewrite dom_insert_L.
    by rewrite (comm_L (∪) {[key]} (dom (subscriptions w))), (assoc_L (∪)).
Qed.

(** X9. After any sequence of calls the own property names of
    [subscriptions] are those it had plus the keys the calls assigned
    under, ["__proto__"] excepted: no property is ever deleted, no other
    property is ever added, and ["__proto__"] never becomes one. *)
Theorem own_keys_after_deliveries stripe env reqs w :
  own_keys (subscriptions (deliver_all stripe env reqs w))
  = own_keys (subscriptions w)
    ∪ (list_to_set ((omap (written stripe env) reqs).*1) ∖ {["__proto__"]})
  /\ "__proto__" ∉ own_keys (subscriptions (deliver_all stripe env reqs w)).
Proof.
  unfold own_keys. rewrite store_dom_after_deliveries. split.
  - apply set_eq. intros key.
    rewrite !elem_of_union, !elem_of_difference, elem_of_union. tauto.
  - rewrite elem_of_difference, elem_of_singleton. tauto.
Qed.

Lemma written_is_a_record stripe env req key r :
  written stripe env req = Some (key, r) ->
  exists plan status, r = record plan status.
Proof.
  unfold written, projection, key_write.
  destruct (verified stripe env req) as [event|]; [|done].
  destruct (decode event) as [[orgId plan|orgId plan status|orgId|type]|];
    simpl; try done;
    destruct (ToString orgId); intros; simplify_eq; eauto.
Qed.

(** X10. From start-up on, every entry of the store is an object made of
    a [plan] and a [status], whatever calls have been delivered. *)
Theorem stored_entries_are_records stripe env reqs key r :
  subscriptions (deliver_all stripe env reqs boot) !! key = Some r ->
  exists plan status,
    r = record plan status
    /\ get r "plan" = Normal plan
    /\ get r "status" = Normal status.
Proof.
  assert (forall w,
            map_Forall (fun _ r => exists plan status, r = record plan status)
                       (subscriptions w) ->
            map_Forall (fun _ r => exists plan status, r = record plan status)
                       (subscriptions (deliver_all stripe env reqs w))) as Hinv.
  { induction reqs as [|req reqs IH]; intros w Hw; [done|].
    simpl. apply IH. rewrite webhook_store.
    destruct (written stripe env req) as [[key' r']|] eqn:Hwritten; [|done].
    simpl. apply map_Forall_insert_2; [|done].
    by eapply written_is_a_record. }
  intros Hr.
  destruct (Hinv boot (map_Forall_empty _) key r Hr) as (plan & status & ->).
  by exists plan, status.
Qed.

Lemma stored_acme_entry_is_a_record :
  exists plan status,
    record (JString "pro") (JString "trialing") = record plan status
    /\ get (record (JString "pro") (JString "trialing")) "plan" = Normal plan
    /\ get (record (JString "pro") (JString "trialing")) "status"
       = Normal status.
Proof.
  apply (stored_entries_are_records Sample.stripe Sample.env
           [Sample.signed "invoice_paid"; Sample.signed "checkout_completed"]
           "acme").
  unfold deliver_all. cbn [foldl]. rewrite !webhook_store.
  apply lookup_insert_eq.
Defined.

(** ** Where the organisation is looked for *)

(** X11. A completed session that has a subscription but whose metadata
    carries neither [orgId] nor [plan] is acknowledged and stored under
    the key ["undefined"] with an undefined plan: every such session lands
    on that one entry. *)
Theorem session_without_org_metadata_lands_on_undefined
    stripe env req w event data session subscription props :
  verified stripe env req = Some event ->
  get event "type" = Normal (JString "checkout.session.completed") ->
  get event "data" = Normal data ->
  get data "object" = Normal session ->
  get session "subscription" = Normal subscription ->
  truthy subscription = true ->
  get session "metadata" = Normal (JObject props) ->
  assoc "orgId" props = None ->
  assoc "plan" props = None ->
  dispatch (webhook stripe env req) w
  = (received,
     {| subscriptions :=
          <["undefined" := record JUndefined (JString "trialing")]>
            (subscriptions w);
        console :=
          console w
          ++ ["Checkout completed for org undefined: trialing undefined"];
        vendor_calls := vendor_calls w |}).
Proof.
  intros Hv Htype Hdata Hsession Hsub Htruthy Hmetadata HorgId Hplan.
  apply (checkout_completed_is_acknowledged _ _ _ _ event
           JUndefined JUndefined "undefined" "undefined" Hv);
    [|done|done].
  unfold decode, checkout_session_completed_fields.
  rewrite Htype, Hdata. simpl.
  rewrite Hsession. simpl. rewrite Hsub. simpl.
  rewrite Htruthy, Hmetadata. simpl. by rewrite HorgId, Hplan.
Qed.

Lemma session_with_empty_metadata_lands_on_undefined :
  dispatch
    (webhook
       (Sample.sending
          (Sample.event "checkout.session.completed"
             (JObject [("subscription", JString "sub_1");
                       ("metadata", JObject [])])))
       Sample.env (Sample.signed "{}"))
    boot
  = (received,
     {| subscriptions :=
          <["undefined" := record JUndefined (JString "trialing")]>
            (subscriptions boot);
        console :=
          console boot
          ++ ["Checkout completed for org undefined: trialing undefined"];
        vendor_calls := vendor_calls boot |}).
Proof.
  apply (session_without_org_metadata_lands_on_undefined _ _ _ _
           (Sample.event "checkout.session.completed"
              (JObject [("subscription", JString "sub_1");
                        ("metadata", JObject [])]))
           (JObject [("object",
                      JObject [("subscription", JString "sub_1");
                               ("metadata", JObject [])])])
           (JObject [("subscription", JString "sub_1");
                     ("metadata", JObject [])])
           (JString "sub_1") []);
    reflexivity.
Defined.

(** X12. The checkout attaches [{orgId, plan}] to the subscription it asks
    for, not to the session: the session parameters have no [metadata],
    [orgId] or [plan] of their own.  A subscription event that carries
    that metadata back decodes to the organisation and the plan of the
    checkout request. *)
Theorem checkout_metadata_comes_back_in_subscription_events
    customerId priceId orgId plan app1 app2 :
  let params :=
    checkout_session_params customerId priceId orgId plan app1 app2 in
  get params "metadata" = Normal JUndefined
  /\ get params "orgId" = Normal JUndefined
  /\ get params "plan" = Normal JUndefined
  /\ exists subscription_data metadata,
       get params "subscription_data" = Normal subscription_data
       /\ get subscription_data "metadata" = Normal metadata
       /\ forall event data subscription,
            get event "data" = Normal data ->
            get data "object" = Normal subscription ->
            get subscription "metadata" = Normal metadata ->
            (get event "type" = Normal (JString "customer.subscription.updated") ->
             forall status,
               get subscription "status" = Normal status ->
               decode event = Normal (SubscriptionUpdated orgId plan status))
            /\ (get event "type"
                = Normal (JString "customer.subscription.deleted") ->
                decode event = Normal (SubscriptionDeleted orgId)).
Proof.
  intros params. do 3 (split; [reflexivity|]).
  eexists _, _. split; [reflexivity|]. split; [reflexivity|].
  intros event data subscription Hdata Hsub Hmetadata.
  split.
  - intros Htype status Hstatus.
    unfold decode, customer_subscription_updated_fields.
    rewrite Htype, Hdata. simpl. rewrite Hsub. simpl.
    rewrite Hmetadata. simpl. by rewrite Hstatus.
  - intros Htype.
    unfold decode, customer_subscription_deleted_fields.
    rewrite Htype, Hdata. simpl. rewrite Hsub. simpl.
    by rewrite Hmetadata.
Qed.

Lemma sample_checkout_metadata_comes_back :
  decode Sample.subscription_updated
  = Normal (SubscriptionUpdated (JString "acme") (JString "pro")
              (JString "active")).
Proof.
  destruct (checkout_metadata_comes_back_in_subscription_events
              (JString "cus_1") (JString "price_pro")
              (JString "acme") (JString "pro")
              "https://app.example" "https://app.example")
    as (_ & _ & _ & subscription_data & metadata & Hdata & Hmetadata & Hback).
  vm_compute in Hdata. injection Hdata as <-.
  vm_compute in Hmetadata. injection Hmetadata as <-.
  apply (Hback Sample.subscription_updated
           (JObject [("object",
                      JObject [("metadata", Sample.org_metadata "acme" "pro");
                               ("status", JString "active")])])
           (JObject [("metadata", Sample.org_metadata "acme" "pro");
                     ("status", JString "active")])
           eq_refl eq_refl eq_refl);
    reflexivity.
Defined.

(** ** The checkout handler, run to the end *)

(** X13. When the vendor resolves both creations, the checkout answers 200
    with the URL of the session; the vendor has been called twice, the
    customer first, and nothing is logged. *)
Theorem checkout_returns_the_session_url
    stripe env req w plan orgId org customer customerId app session url :
  get (checkout_body req) "plan" = Normal plan ->
  get (checkout_body req) "orgId" = Normal orgId ->
  truthy plan = true ->
  truthy orgId = true ->
  ToString orgId = Normal org ->
  customers_create stripe (customer_params org orgId) = Some customer ->
  get customer "id" = Normal customerId ->
  ToString (APP_URL env) = Normal app ->
  checkout_sessions_create stripe
    (checkout_session_params customerId (priceId_of env plan) orgId plan
       app app) = Some session ->
  get session "url" = Normal url ->
  dispatch (checkout stripe env req) w
  = (Sent 200 (Json (JObject [("url", url)])),
     {| subscriptions := subscriptions w;
        console := console w;
        vendor_calls :=
          vendor_calls w
          ++ [CustomersCreate (customer_params org orgId);
              CheckoutSessionsCreate
                (checkout_session_params customerId (priceId_of env plan)
                   orgId plan app app)] |}).
Proof.
  intros Hplan HorgId Htplan HtorgId Horg Hcustomer Hid Happ Hsession Hurl.
  rewrite (checkout_run _ _ _ _ _ _ Hplan HorgId Htplan HtorgId).
  rewrite Horg, Hcustomer, Hid, Happ. simpl.
  rewrite Hsession, Hurl. unfold after_call. simpl.
  by rewrite <- app_assoc.
Qed.

Lemma business_checkout_returns_the_session_url :
  dispatch (checkout Sample.stripe Sample.env
              (Sample.checkout_for "business" "acme")) boot
  = (Sent 200 (Json (JObject [("url", JString "https://checkout.example/s1")])),
     {| subscriptions := subscriptions boot;
        console := console boot;
        vendor_calls :=
          vendor_calls boot
          ++ [CustomersCreate (customer_params "acme" (JString "acme"));
              CheckoutSessionsCreate
                (checkout_session_params (JString "cus_1")
                   (priceId_of Sample.env (JString "business"))
                   (JString "acme") (JString "business")
                   "https://app.example" "https://app.example")] |}).
Proof.
  apply (checkout_returns_the_session_url Sample.stripe Sample.env
           (Sample.checkout_for "business" "acme") boot
           (JString "business") (JString "acme") "acme"
           (JObject [("id", JString "cus_1")]) (JString "cus_1")
           "https://app.example"
           (JObject [("url", JString "https://checkout.example/s1")])
           (JString "https://checkout.example/s1"));
    reflexivity.
Defined.

(** X14. When the vendor rejects the customer creation, the checkout
    answers 500 with [{error: 'Internal server error'}] and logs the
    failure; no checkout session is requested. *)
Theorem checkout_fails_when_the_customer_is_rejected
    stripe env req w plan orgId org :
  get (checkout_body req) "plan" = Normal plan ->
  get (checkout_body req) "orgId" = Normal orgId ->
  truthy plan = true ->
  truthy orgId = true ->
  ToString orgId = Normal org ->
  customers_create stripe (customer_params org orgId) = None ->
  dispatch (checkout stripe env req) w
  = (internal_server_error,
     {| subscriptions := subscriptions w;
        console := console w ++ ["Error creating checkout session:"];
        vendor_calls :=
          vendor_calls w ++ [CustomersCreate (customer_params org orgId)] |}).
Proof.
  intros Hplan HorgId Htplan HtorgId Horg Hcustomer.
  rewrite (checkout_run _ _ _ _ _ _ Hplan HorgId Htplan HtorgId).
  by rewrite Horg, Hcustomer.
Qed.

Lemma checkout_fails_without_a_customer :
  dispatch
    (checkout (Sample.sending JNull) Sample.env
       (Sample.checkout_for "pro" "acme")) boot
  = (internal_server_error,
     {| subscriptions := subscriptions boot;
        console := console boot ++ ["Error creating checkout session:"];
        vendor_calls :=
          vendor_calls boot
          ++ [CustomersCreate (customer_params "acme" (JString "acme"))] |}).
Proof.
  apply (checkout_fails_when_the_customer_is_rejected
           (Sample.sending JNull) Sample.env
           (Sample.checkout_for "pro" "acme") boot
           (JString "pro") (JString "acme") "acme");
    reflexivity.
Defined.

(** X15. When the vendor rejects the session creation, the checkout
    answers 500 and logs the failure; the customer created just before
    stays created. *)
Theorem checkout_fails_when_the_session_is_rejected
    stripe env req w plan orgId org customer customerId app :
  get (checkout_body req) "plan" = Normal plan ->
  get (checkout_body req) "orgId" = Normal orgId ->
  truthy plan = true ->
  truthy orgId = true ->
  ToString orgId = Normal org ->
  customers_create stripe (customer_params org orgId) = Some customer ->
  get customer "id" = Normal customerId ->
  ToString (APP_URL env) = Normal app ->
  checkout_sessions_create stripe
    (checkout_session_params customerId (priceId_of env plan) orgId plan
       app app) = None ->
  dispatch (checkout stripe env req) w
  = (internal_server_error,
     {| subscriptions := subscriptions w;
        console := console w ++ ["Error creating checkout session:"];
        vendor_calls :=
          vendor_calls w
          ++ [CustomersCreate (customer_params org orgId);
              CheckoutSessionsCreate
                (checkout_session_params customerId (priceId_of env plan)
                   orgId plan app app)] |}).
Proof.
  intros Hplan HorgId Htplan HtorgId Horg Hcustomer Hid Happ Hsession.
  rewrite (checkout_run _ _ _ _ _ _ Hplan HorgId Htplan HtorgId).
  rewrite Horg, Hcustomer, Hid, Happ. simpl. rewrite Hsession.
  unfold checkout_failed, console_log, after_call. simpl.
  by rewrite <- app_assoc.
Qed.

(** X16. An organisation that is present but cannot be interpolated (an
    object with a [toString] property of its own) makes the checkout
    answer 500 before any vendor call. *)
Theorem checkout_fails_on_an_unprintable_organisation
    stripe env req w plan orgId err :
  get (checkout_body req) "plan" = Normal plan ->
  get (checkout_body req) "orgId" = Normal orgId ->
  truthy plan = true ->
  truthy orgId = true ->
  ToString orgId = Throw err ->
  dispatch (checkout stripe env req) w
  = (internal_server_error,
     {| subscriptions := subscriptions w;
        console := console w ++ ["Error creating checkout session:"];
        vendor_calls := vendor_calls w |}).
Proof.
  intros Hplan HorgId Htplan HtorgId Horg.
  rewrite (checkout_run _ _ _ _ _ _ Hplan HorgId Htplan HtorgId).
  by rewrite Horg.
Qed.

Lemma checkout_fails_on_a_shadowed_toString :
  dispatch
    (checkout Sample.stripe Sample.env
       {| checkout_body :=
            JObject [("plan", JString "pro");
                     ("orgId", JObject [("toString", JString "acme")])] |})
    boot
  = (internal_server_error,
     {| subscriptions := subscriptions boot;
        console := console boot ++ ["Error creating checkout session:"];
        vendor_calls := vendor_calls boot |}).
Proof.
  apply (checkout_fails_on_an_unprintable_organisation
           Sample.stripe Sample.env _ boot (JString "pro")
           (JObject [("toString", JString "acme")]) TypeError);
    reflexivity.
Defined.

Lemma session_rejected_after_the_customer :
  let stripe :=
    {| webhooks_constructEvent body sig secret := inl "not used";
       customers_create params := Some (JObject [("id", JString "cus_1")]);
       checkout_sessions_create params := None |} in
  dispatch (checkout stripe Sample.env (Sample.checkout_for "pro" "acme")) boot
  = (internal_server_error,
     {| subscriptions := subscriptions boot;
        console := console boot ++ ["Error creating checkout session:"];
        vendor_calls :=
          vendor_calls boot
          ++ [CustomersCreate (customer_params "acme" (JString "acme"));
              CheckoutSessionsCreate
                (checkout_session_params (JString "cus_1")
                   (priceId_of Sample.env (JString "pro"))
                   (JString "acme") (JString "pro")
                   "https://app.example" "https://app.example")] |}).
Proof.
  intros stripe.
  apply (checkout_fails_when_the_session_is_rejected stripe Sample.env
           (Sample.checkout_for "pro" "acme") boot
           (JString "pro") (JString "acme") "acme"
           (JObject [("id", JString "cus_1")]) (JString "cus_1")
           "https://app.example");
    reflexivity.
Defined.

(** The three ways a checkout can go. *)
Lemma checkout_cases stripe env req w :
  dispatch (checkout stripe env req) w = (Uncaught TypeError, w)
  \/ dispatch (checkout stripe env req) w = (missing_plan_or_orgId, w)
  \/ exists plan orgId,
       get (checkout_body req) "plan" = Normal plan
       /\ get (checkout_body req) "orgId" = Normal orgId
       /\ truthy plan = true
       /\ truthy orgId = true.
Proof.
  unfold checkout. rewrite dispatch_bind_lift.
  destruct (get (checkout_body req) "plan") as [plan|err] eqn:Hplan.
  - destruct (get_total _ _ "orgId" _ Hplan) as [orgId HorgId].
    rewrite dispatch_bind_lift, HorgId.
    destruct (truthy plan) eqn:Htplan; [|by right; left].
    destruct (truthy orgId) eqn:HtorgId; [|by right; left].
    right; right. by exists plan, orgId.
  - apply get_throws in Hplan as ->. by left.
Qed.

(** X17. Whatever readable body it is sent, the checkout answers, and in
    one of three ways: 400 for a missing field, 200 with a URL, or 500.
    Nothing thrown after the field check leaves the handler. *)
Theorem checkout_answers stripe env req w plan :
  get (checkout_body req) "plan" = Normal plan ->
  fst (dispatch (checkout stripe env req) w) = missing_plan_or_orgId
  \/ fst (dispatch (checkout stripe env req) w) = internal_server_error
  \/ exists url,
       fst (dispatch (checkout stripe env req) w)
       = Sent 200 (Json (JObject [("url", url)])).
Proof.
  intros Hplan.
  destruct (checkout_cases stripe env req w)
    as [Hrun|[Hrun|(plan' & orgId & Hplan' & HorgId & Htplan & HtorgId)]].
  - exfalso. revert Hrun. unfold checkout.
    rewrite dispatch_bind_lift, Hplan.
    destruct (get_total _ _ "orgId" _ Hplan) as [orgId HorgId].
    rewrite dispatch_bind_lift, HorgId.
    destruct (negb (truthy plan) || negb (truthy orgId)); [done|].
    unfold dispatch, try_catch, bind, ret, console_log.
    repeat case_match; simplify_eq; done.
  - left. by rewrite Hrun.
  - rewrite (checkout_run _ _ _ _ _ _ Hplan' HorgId Htplan HtorgId).
    unfold checkout_failed.
    repeat case_match; simpl; eauto.
Qed.

Lemma checkout_answers_an_empty_body :
  fst (dispatch (checkout Sample.stripe Sample.env
                   {| checkout_body := JObject [] |}) boot)
  = missing_plan_or_orgId
  \/ fst (dispatch (checkout Sample.stripe Sample.env
                      {| checkout_body := JObject [] |}) boot)
     = internal_server_error
  \/ exists url,
       fst (dispatch (checkout Sample.stripe Sample.env
                        {| checkout_body := JObject [] |}) boot)
       = Sent 200 (Json (JObject [("url", url)])).
Proof.
  apply (checkout_answers Sample.stripe Sample.env
           {| checkout_body := JObject [] |} boot JUndefined).
  reflexivity.
Defined.

(** X18. The checkout never touches the subscription store: whatever the
    request and whatever the vendor answers, every entry is as before. *)
Theorem checkout_leaves_the_store stripe env req w :
  subscriptions (checkout_world stripe env w req) = subscriptions w.
Proof.
  unfold checkout_world.
  destruct (checkout_cases stripe env req w)
    as [->|[->|(plan & orgId & Hplan & HorgId & Htplan & HtorgId)]];
    [done|done|].
  rewrite (checkout_run _ _ _ _ _ _ Hplan HorgId Htplan HtorgId).
  unfold checkout_failed, console_log, after_call.
  repeat case_match; simplify_eq; done.
Qed.

(** X19. A checkout calls the vendor at most twice: not at all, or to
    create a customer, or to create a customer and then a checkout
    session.  A session is never requested without a customer created in
    the same request. *)
Theorem checkout_calls_the_vendor_at_most_twice stripe env req w :
  exists calls,
    vendor_calls (checkout_world stripe env w req)
    = (vendor_calls w ++ calls)%list
    /\ (calls = []
        \/ (exists customer, calls = [CustomersCreate customer])
        \/ exists customer session,
             calls = [CustomersCreate customer;
                      CheckoutSessionsCreate session]).
Proof.
  unfold checkout_world.
  destruct (checkout_cases stripe env req w)
    as [->|[->|(plan & orgId & Hplan & HorgId & Htplan & HtorgId)]].
  - exists []. split; [by rewrite app_nil_r|by left].
  - exists []. split; [by rewrite app_nil_r|by left].
  - rewrite (checkout_run _ _ _ _ _ _ Hplan HorgId Htplan HtorgId).
    unfold checkout_failed, console_log, after_call.
    repeat case_match; simplify_eq; simpl;
      first [ exists []; split; [by rewrite app_nil_r|by left]
            | eexists [_]; split; [done|right; left; eauto]
            | eexists [_; _]; split;
              [by rewrite <- app_assoc|right; right; eauto] ].
Qed.

(** The calls one checkout adds do not depend on the calls made before. *)
Lemma checkout_creates_a_customer stripe env req plan orgId org :
  get (checkout_body req) "plan" = Normal plan ->
  get (checkout_body req) "orgId" = Normal orgId ->
  truthy plan = true ->
  truthy orgId = true ->
  ToString orgId = Normal org ->
  exists rest,
    forall w,
      vendor_calls (checkout_world stripe env w req)
      = (vendor_calls w
         ++ CustomersCreate (customer_params org orgId) :: rest)%list.
Proof.
  intros Hplan HorgId Htplan HtorgId Horg.
  unfold checkout_world.
  destruct (customers_create stripe (customer_params org orgId))
    as [customer|] eqn:Hcustomer.
  2: { exists []. intros w.
       rewrite (checkout_run _ _ _ _ _ _ Hplan HorgId Htplan HtorgId).
       by rewrite Horg, Hcustomer. }
  destruct (get customer "id") as [customerId|] eqn:Hid.
  2: { exists []. intros w.
       rewrite (checkout_run _ _ _ _ _ _ Hplan HorgId Htplan HtorgId).
       by rewrite Horg, Hcustomer, Hid. }
  destruct (ToString (APP_URL env)) as [app|] eqn:Happ.
  2: { exists []. intros w.
       rewrite (checkout_run _ _ _ _ _ _ Hplan HorgId Htplan HtorgId).
       by rewrite Horg, Hcustomer, Hid, Happ. }
  exists [CheckoutSessionsCreate
            (checkout_session_params customerId (priceId_of env plan)
               orgId plan app app)].
  intros w.
  rewrite (checkout_run _ _ _ _ _ _ Hplan HorgId Htplan HtorgId).
  rewrite Horg, Hcustomer, Hid, Happ. simpl.
  unfold checkout_failed, console_log, after_call.
  repeat case_match; simplify_eq; simpl; by rewrite <- app_assoc.
Qed.

(** X20. No customer is ever looked up or reused: two checkouts for the
    same organisation each ask the vendor to create a customer with the
    same parameters, whatever the vendor answered the first time and
    answers the second. *)
Theorem every_checkout_creates_a_new_customer
    stripe1 stripe2 env req w plan orgId org :
  get (checkout_body req) "plan" = Normal plan ->
  get (checkout_body req) "orgId" = Normal orgId ->
  truthy plan = true ->
  truthy orgId = true ->
  ToString orgId = Normal org ->
  exists rest1 rest2,
    vendor_calls
      (checkout_world stripe2 env (checkout_world stripe1 env w req) req)
    = (vendor_calls w
       ++ (CustomersCreate (customer_params org orgId) :: rest1)
       ++ (CustomersCreate (customer_params org orgId) :: rest2))%list.
Proof.
  intros Hplan HorgId Htplan HtorgId Horg.
  destruct (checkout_creates_a_customer stripe1 env req plan orgId org
              Hplan HorgId Htplan HtorgId Horg) as [rest1 Hcalls1].
  destruct (checkout_creates_a_customer stripe2 env req plan orgId org
              Hplan HorgId Htplan HtorgId Horg) as [rest2 Hcalls2].
  exists rest1, rest2. by rewrite Hcalls2, Hcalls1, <- app_assoc.
Qed.

Lemma two_checkouts_create_two_customers :
  exists rest1 rest2,
    vendor_calls
      (checkout_world (Sample.sending JNull) Sample.env
         (checkout_world Sample.stripe Sample.env boot
            (Sample.checkout_for "pro" "acme"))
         (Sample.checkout_for "pro" "acme"))
    = (vendor_calls boot
       ++ (CustomersCreate (customer_params "acme" (JString "acme")) :: rest1)
       ++ (CustomersCreate (customer_params "acme" (JString "acme")) :: rest2))%list.
Proof.
  apply (every_checkout_creates_a_new_customer Sample.stripe
           (Sample.sending JNull) Sample.env
           (Sample.checkout_for "pro" "acme") boot
           (JString "pro") (JString "acme") "acme");
    reflexivity.
Defined.

(** ** The billing portal *)

(** X21. A portal request without an organisation is refused with status
    400 and the text ['orgId is required']; nothing is logged and the
    vendor is not called. *)
Theorem portal_requires_an_organisation
    stripe billingPortal env req pw orgId :
  get (portal_query req) "orgId" = Normal orgId ->
  truthy orgId = false ->
  portal stripe billingPortal env req pw = (orgId_is_required, pw).
Proof. intros HorgId Hfalsy. unfold portal. by rewrite HorgId, Hfalsy. Qed.

(** X22. When the vendor resolves both calls, the portal redirects to the
    URL of the portal session.  A customer is created first, then the
    session is requested for that customer with the application's billing
    settings page as the return URL. *)
Theorem portal_redirects_to_the_session
    stripe billingPortal env req pw orgId org customer customerId app
    portalSession url :
  get (portal_query req) "orgId" = Normal orgId ->
  truthy orgId = true ->
  ToString orgId = Normal org ->
  customers_create stripe (customer_params org orgId) = Some customer ->
  get customer "id" = Normal customerId ->
  ToString (APP_URL env) = Normal app ->
  billingPortal_sessions_create billingPortal
    (portal_session_params customerId app) = Some portalSession ->
  get portalSession "url" = Normal url ->
  portal stripe billingPortal env req pw
  = (Redirected url,
     {| server :=
          after_call (server pw) (CustomersCreate (customer_params org orgId));
        portal_sessions :=
          portal_sessions pw ++ [portal_session_params customerId app] |}).
Proof.
  intros HorgId Htruthy Horg Hcustomer Hid Happ Hsession Hurl.
  unfold portal. rewrite HorgId, Htruthy. simpl.
  unfold getOrCreateCustomer, bind, lift, call_vendor.
  rewrite Horg, Hcustomer. simpl. rewrite Hid, Happ. simpl.
  by rewrite Hsession, Hurl.
Qed.

Lemma portal_refuses_an_empty_query :
  portal Sample.stripe PortalSample.billingPortal Sample.env
    {| portal_query := JObject [] |} PortalSample.start
  = (orgId_is_required, PortalSample.start).
Proof.
  apply (portal_requires_an_organisation Sample.stripe
           PortalSample.billingPortal Sample.env
           {| portal_query := JObject [] |} PortalSample.start JUndefined);
    reflexivity.
Defined.

Lemma portal_redirects_acme :
  portal Sample.stripe PortalSample.billingPortal Sample.env
    (PortalSample.request_for "acme") PortalSample.start
  = (Redirected (JString "https://billing.example/p1"),
     {| server :=
          after_call (server PortalSample.start)
            (CustomersCreate (customer_params "acme" (JString "acme")));
        portal_sessions :=
          portal_sessions PortalSample.start
          ++ [portal_session_params (JString "cus_1") "https://app.example"] |}).
Proof.
  apply (portal_redirects_to_the_session Sample.stripe
           PortalSample.billingPortal Sample.env
           (PortalSample.request_for "acme") PortalSample.start
           (JString "acme") "acme"
           (JObject [("id", JString "cus_1")]) (JString "cus_1")
           "https://app.example"
           (JObject [("url", JString "https://billing.example/p1")])
           (JString "https://billing.example/p1"));
    reflexivity.
Defined.

(** X23. When the vendor rejects the customer creation, the portal answers
    500 with the text ['Internal server error'] and logs the failure; no
    portal session is requested. *)
Theorem portal_fails_when_the_customer_is_rejected
    stripe billingPortal env req pw orgId org :
  get (portal_query req) "orgId" = Normal orgId ->
  truthy orgId = true ->
  ToString orgId = Normal org ->
  customers_create stripe (customer_params org orgId) = None ->
  portal stripe billingPortal env req pw
  = (Answered (Sent 500 (Text "Internal server error")),
     {| server :=
          {| subscriptions := subscriptions (server pw);
             console :=
               console (server pw)
               ++ ["Error creating billing portal session:"];
             vendor_calls :=
               vendor_calls (server pw)
               ++ [CustomersCreate (customer_params org orgId)] |};
        portal_sessions := portal_sessions pw |}).
Proof.
  intros HorgId Htruthy Horg Hcustomer.
  unfold portal. rewrite HorgId, Htruthy. simpl.
  unfold getOrCreateCustomer, bind, lift, call_vendor.
  by rewrite Horg, Hcustomer.
Qed.

Lemma portal_fails_without_a_customer :
  portal (Sample.sending JNull) PortalSample.billingPortal Sample.env
    (PortalSample.request_for "acme") PortalSample.start
  = (Answered (Sent 500 (Text "Internal server error")),
     {| server :=
          {| subscriptions := subscriptions (server PortalSample.start);
             console :=
               console (server PortalSample.start)
               ++ ["Error creating billing portal session:"];
             vendor_calls :=
               vendor_calls (server PortalSample.start)
               ++ [CustomersCreate (customer_params "acme" (JString "acme"))] |};
        portal_sessions := portal_sessions PortalSample.start |}).
Proof.
  apply (portal_fails_when_the_customer_is_rejected (Sample.sending JNull)
           PortalSample.billingPortal Sample.env
           (PortalSample.request_for "acme") PortalSample.start
           (JString "acme") "acme");
    reflexivity.
Defined.

(** Every path of the portal once the organisation is present. *)
Lemma portal_run stripe billingPortal env req pw orgId :
  get (portal_query req) "orgId" = Normal orgId ->
  truthy orgId = true ->
  portal stripe billingPortal env req pw
  = match ToString orgId with
    | Throw _ => portal_failed (server pw) (portal_sessions pw)
    | Normal org =>
        let w :=
          after_call (server pw) (CustomersCreate (customer_params org orgId)) in
        match customers_create stripe (customer_params org orgId) with
        | None => portal_failed w (portal_sessions pw)
        | Some customer =>
            match get customer "id", ToString (APP_URL env) with
            | Normal customerId, Normal app =>
                let params := portal_session_params customerId app in
                let sessions := (portal_sessions pw ++ [params])%list in
                match billingPortal_sessions_create billingPortal params with
                | None => portal_failed w sessions
                | Some portalSession =>
                    match get portalSession "url" with
                    | Normal url =>
                        (Redirected url,
                         {| server := w; portal_sessions := sessions |})
                    | Throw _ => portal_failed w sessions
                    end
                end
            | _, _ => portal_failed w (portal_sessions pw)
            end
        end
    end.
Proof.
  intros HorgId Htruthy.
  unfold portal. rewrite HorgId, Htruthy. simpl.
  unfold getOrCreateCustomer, bind, lift, call_vendor, after_call.
  destruct (ToString orgId) as [org|]; simpl; [|done].
  destruct (customers_create stripe _) as [customer|]; simpl; [|done].
  destruct (get customer "id") as [customerId|]; simpl; [|done].
  by destruct (ToString (APP_URL env)) as [app|].
Qed.

(** X24. Whatever readable query it is sent, the portal answers, and in
    one of three ways: 400 for a missing organisation, a redirect, or 500
    in plain text.  Nothing thrown after the check leaves the handler. *)
Theorem portal_answers stripe billingPortal env req pw orgId :
  get (portal_query req) "orgId" = Normal orgId ->
  fst (portal stripe billingPortal env req pw) = orgId_is_required
  \/ fst (portal stripe billingPortal env req pw)
     = Answered (Sent 500 (Text "Internal server error"))
  \/ exists url,
       fst (portal stripe billingPortal env req pw) = Redirected url.
Proof.
  intros HorgId.
  destruct (truthy orgId) eqn:Htruthy.
  - rewrite (portal_run _ _ _ _ _ _ HorgId Htruthy).
    unfold portal_failed. repeat case_match; simpl; eauto.
  - left. by rewrite (portal_requires_an_organisation _ _ _ _ _ _ HorgId Htruthy).
Qed.

Lemma portal_answers_an_empty_organisation :
  fst (portal Sample.stripe PortalSample.billingPortal Sample.env
         (PortalSample.request_for "") PortalSample.start)
  = orgId_is_required
  \/ fst (portal Sample.stripe PortalSample.billingPortal Sample.env
            (PortalSample.request_for "") PortalSample.start)
     = Answered (Sent 500 (Text "Internal server error"))
  \/ exists url,
       fst (portal Sample.stripe PortalSample.billingPortal Sample.env
              (PortalSample.request_for "") PortalSample.start)
       = Redirected url.
Proof.
  apply (portal_answers Sample.stripe PortalSample.billingPortal Sample.env
           (PortalSample.request_for "") PortalSample.start (JString "")).
  reflexivity.
Defined.

(** X25. The portal never touches the subscription store, creates at most
    one customer, and requests at most one portal session; a session is
    requested only after a customer was created in the same request. *)
Theorem portal_effects stripe billingPortal env req pw :
  let pw' := snd (portal stripe billingPortal env req pw) in
  subscriptions (server pw') = subscriptions (server pw)
  /\ (vendor_calls (server pw') = vendor_calls (server pw)
      /\ portal_sessions pw' = portal_sessions pw
      \/ exists customer,
           vendor_calls (server pw')
           = (vendor_calls (server pw) ++ [CustomersCreate customer])%list
           /\ (portal_sessions pw' = portal_sessions pw
               \/ exists session,
                    portal_sessions pw'
                    = (portal_sessions pw ++ [session])%list)).
Proof.
  intros pw'. subst pw'.
  destruct (get (portal_query req) "orgId") as [orgId|err] eqn:HorgId.
  2: { unfold portal. rewrite HorgId. simpl. split; [done|by left]. }
  destruct (truthy orgId) eqn:Htruthy.
  2: { rewrite (portal_requires_an_organisation _ _ _ _ _ _ HorgId Htruthy).
       simpl. split; [done|by left]. }
  rewrite (portal_run _ _ _ _ _ _ HorgId Htruthy).
  unfold portal_failed, console_log, after_call.
  repeat case_match; simplify_eq; simpl; (split; [done|]);
    first [ by left | right; eexists; split; [done|]; eauto ].
Qed.

(** X26. The portal does not find the customer a checkout created: a
    portal request for an organisation that has just checked out asks the
    vendor to create the same customer once more. *)
Theorem portal_creates_the_customer_again
    stripe billingPortal env creq preq w sessions plan orgId org :
  get (checkout_body creq) "plan" = Normal plan ->
  get (checkout_body creq) "orgId" = Normal orgId ->
  truthy plan = true ->
  truthy orgId = true ->
  get (portal_query preq) "orgId" = Normal orgId ->
  ToString orgId = Normal org ->
  exists rest,
    vendor_calls
      (server
         (snd (portal stripe billingPortal env preq
                 {| server := checkout_world stripe env w creq;
                    portal_sessions := sessions |})))
    = (vendor_calls w
       ++ (CustomersCreate (customer_params org orgId) :: rest)
       ++ [CustomersCreate (customer_params org orgId)])%list.
Proof.
  intros Hplan HorgId Htplan HtorgId Hquery Horg.
  destruct (checkout_creates_a_customer stripe env creq plan orgId org
              Hplan HorgId Htplan HtorgId Horg) as [rest Hcalls].
  exists rest.
  rewrite (portal_run _ _ _ _ _ _ Hquery HtorgId), Horg. simpl.
  unfold portal_failed, console_log, after_call.
  repeat case_match; simplify_eq; simpl; by rewrite Hcalls, <- app_assoc.
Qed.

Lemma portal_after_checkout_creates_acme_again :
  exists rest,
    vendor_calls
      (server
         (snd (portal Sample.stripe PortalSample.billingPortal Sample.env
                 (PortalSample.request_for "acme")
                 {| server :=
                      checkout_world Sample.stripe Sample.env boot
                        (Sample.checkout_for "pro" "acme");
                    portal_sessions := [] |})))
    = (vendor_calls boot
       ++ (CustomersCreate (customer_params "acme" (JString "acme")) :: rest)
       ++ [CustomersCreate (customer_params "acme" (JString "acme"))])%list.
Proof.
  apply (portal_creates_the_customer_again Sample.stripe
           PortalSample.billingPortal Sample.env
           (Sample.checkout_for "pro" "acme")
           (PortalSample.request_for "acme") boot []
           (JString "pro") (JString "acme") "acme");
    reflexivity.
Defined.
